(** * echoregions: Echoview line (EVL) and region (EVR) parsers, time decoding
      and 2D/3D mask conversion.

    A shallow embedding of [echoregions/convert/evl_parser.py] and
    [echoregions/convert/evr_parser.py], together with the helpers those
    modules call, followed by the properties checked against it. *)

From Stdlib Require Import ZArith Lia Ascii String.
From stdpp Require Import base option list strings gmap fin_maps pretty.

Local Open Scope string_scope.
Local Open Scope Z_scope.

(** ** Python exceptions and results *)

Inductive exn : Set :=
  | ValueError
  | KeyError
  | IndexError
  | TypeError
  | FormatError
  | TruncatedFileError
  | ParserError.

Inductive result (A : Type) : Type :=
  | Ok (a : A)
  | Raise (e : exn).
Arguments Ok {A} a.
Arguments Raise {A} e.

Definition rbind {A B} (r : result A) (k : A → result B) : result B :=
  match r with
  | Ok a => k a
  | Raise e => Raise e
  end.

Notation "'try' x := r 'in' k" := (rbind r (fun x => k))
  (at level 10, x pattern, r at level 100, k at level 200, only parsing).

(** ** Python [str] helpers (ASCII) *)

Module Str.

(** [str.isspace] on one ASCII character: TAB, LF, VT, FF, CR, the four
    separators FS..US and SPACE. *)
Definition isspace (c : ascii) : bool :=
  let n := nat_of_ascii c in
  ((9 <=? n)%nat && (n <=? 13)%nat) || ((28 <=? n)%nat && (n <=? 32)%nat).

Fixpoint lstrip (s : string) : string :=
  match s with
  | String c s' => if isspace c then lstrip s' else s
  | EmptyString => EmptyString
  end.

Definition rstrip (s : string) : string :=
  String.rev (lstrip (String.rev s)).

(** [s.strip()] *)
Definition strip (s : string) : string := rstrip (lstrip s).

(** [s.split()]: the maximal runs of non-whitespace characters, in order.
    [cur] is the token being read, reversed. *)
Fixpoint split_go (cur : option string) (s : string) : list string :=
  match s with
  | EmptyString => option_list (String.rev <$> cur)
  | String c s' =>
      if isspace c
      then option_list (String.rev <$> cur) ++ split_go None s'
      else split_go (Some (String c (default EmptyString cur))) s'
  end.

Definition split (s : string) : list string := split_go None s.

Definition upper_char (c : ascii) : ascii :=
  let n := nat_of_ascii c in
  if (97 <=? n)%nat && (n <=? 122)%nat then ascii_of_nat (n - 32) else c.

(** [s.upper()] *)
Fixpoint upper (s : string) : string :=
  match s with
  | String c s' => String (upper_char c) (upper s')
  | EmptyString => EmptyString
  end.

(** [s.startswith(pre)] *)
Fixpoint startswith (s pre : string) : bool :=
  match pre, s with
  | EmptyString, _ => true
  | String a pre', String b s' => Ascii.eqb a b && startswith s' pre'
  | String _ _, EmptyString => false
  end.

(** [s.endswith(suffix)] *)
Definition endswith (s suffix : string) : bool :=
  startswith (String.rev s) (String.rev suffix).

Definition digit (c : ascii) : option Z :=
  let n := nat_of_ascii c in
  if (48 <=? n)%nat && (n <=? 57)%nat then Some (Z.of_nat (n - 48)) else None.

(** The digit part of an integer literal: decimal digits, with single
    underscores allowed between two digits. *)
Fixpoint digits_go (acc : Z) (after_digit : bool) (s : string) : option Z :=
  match s with
  | EmptyString => if after_digit then Some acc else None
  | String c s' =>
      match digit c with
      | Some d => digits_go (10 * acc + d) true s'
      | None =>
          if Ascii.eqb c "_"%char && after_digit
          then digits_go acc false s' else None
      end
  end.

(** [int(s)] for a string argument: surrounding whitespace, an optional
    sign, then the digits; anything else is a [ValueError]. *)
Definition int (s : string) : result Z :=
  let body := strip s in
  let '(sign, ds) :=
    match body with
    | String "-"%char r => (-1, r)
    | String "+"%char r => (1, r)
    | _ => (1, body)
    end in
  match digits_go 0 false ds with
  | Some n => Ok (sign * n)
  | None => Raise ValueError
  end.

(** A run of exactly [n] decimal digits at the head of [s]: its value and
    the rest of the string. *)
Fixpoint take_digits (n : nat) (acc : Z) (s : string) : option (Z * string) :=
  match n with
  | O => Some (acc, s)
  | S n' =>
      match s with
      | String c s' =>
          match digit c with
          | Some d => take_digits n' (10 * acc + d) s'
          | None => None
          end
      | EmptyString => None
      end
  end.

End Str.

(** ** utils.parse_time *)

Module TimeCodec.

(** A calendar instant with a resolution of 0.1 ms: [subsec] counts the
    tenths of a millisecond within the second (0 .. 9999). *)
Record instant : Set := Instant {
  year : Z; month : Z; day : Z;
  hour : Z; minute : Z; second : Z;
  subsec : Z
}.

Definition leap_year (y : Z) : bool :=
  ((y mod 4 =? 0) && negb (y mod 100 =? 0)) || (y mod 400 =? 0).

Definition days_in_month (y m : Z) : Z :=
  if m =? 2 then (if leap_year y then 29 else 28)
  else if (m =? 4) || (m =? 6) || (m =? 9) || (m =? 11) then 30
  else 31.

(** The sub-second digits that follow [HHmmSS]: at most four of them,
    read as a decimal fraction of a second, so a shorter run counts as if
    it were padded with zeros on the right. *)
Definition subsec_of (frac : string) : option Z :=
  let k := String.length frac in
  if (k <=? 4)%nat then
    match Str.take_digits k 0 frac with
    | Some (v, EmptyString) => Some (v * 10 ^ Z.of_nat (4 - k))
    | _ => None
    end
  else None.

(** [CCYYMMDD], the separator [sep], then [HHmmSS] and the sub-second
    digits. *)
Definition decode_fields (sep : ascii) (s : string) : result instant :=
  match Str.take_digits 4 0 s with
  | Some (y, r1) =>
    match Str.take_digits 2 0 r1 with
    | Some (mo, r2) =>
      match Str.take_digits 2 0 r2 with
      | Some (d, String c time_) =>
        match Str.take_digits 2 0 time_ with
        | Some (h, t1) =>
          match Str.take_digits 2 0 t1 with
          | Some (mi, t2) =>
            match Str.take_digits 2 0 t2 with
            | Some (sec, frac) =>
              match subsec_of frac with
              | Some f =>
                  if Ascii.eqb c sep
                     && (1 <=? mo) && (mo <=? 12) && (1 <=? d)
                     && (d <=? days_in_month y mo)
                     && (h <? 24) && (mi <? 60) && (sec <? 60)
                  then Ok (Instant y mo d h mi sec f)
                  else Raise FormatError
              | None => Raise FormatError
              end
            | None => Raise FormatError
            end
          | None => Raise FormatError
          end
        | None => Raise FormatError
        end
      | _ => Raise FormatError
      end
    | None => Raise FormatError
    end
  | None => Raise FormatError
  end.

(** Modelled from the spec: [parse_time] lives in [utils.py], which is
    not among the sources; only its test and its callers are.  The
    composite string is an 8-digit date [CCYYMMDD] and a time
    [HHmmSSssss] whose trailing digits are units of 0.1 ms.  The two are
    written either as [D{date}T{time}] (the token the parsers build and
    pass to [parse_time]) or as [{date} {time}] (the form
    [test_parse_time] passes); any other shape is a [FormatError]. *)
Definition parse_time (ev_time : string) : result instant :=
  match ev_time with
  | String "D"%char r => decode_fields "T"%char r
  | _ => decode_fields " "%char ev_time
  end.

End TimeCodec.

(** ** ev_parser.EvParserBase: reading records from the open file *)

(** The open file [fid] is the list of the lines not read yet.  A reader
    consumes a prefix of it and either returns a value with the lines that
    remain or raises. *)
Definition reader (A : Type) : Type := list string → result (A * list string).

Definition ret {A} (a : A) : reader A := fun fid => Ok (a, fid).

Definition raise {A} (e : exn) : reader A := fun _ => Raise e.

Definition bind {A B} (m : reader A) (k : A → reader B) : reader B :=
  fun fid =>
    match m fid with
    | Ok (a, fid') => k a fid'
    | Raise e => Raise e
    end.

Definition lift {A} (r : result A) : reader A :=
  fun fid =>
    match r with
    | Ok a => Ok (a, fid)
    | Raise e => Raise e
    end.

Notation "'let*' x := m 'in' k" := (bind m (fun x => k))
  (at level 10, x pattern, m at level 100, k at level 200, only parsing).

Module EvParserBase.

(** [fid.readline()] of a Python file object: the next line, or the empty
    string at the end of the file. *)
Definition readline : reader string :=
  fun fid =>
    match fid with
    | l :: fid' => Ok (l, fid')
    | [] => Ok (EmptyString, [])
    end.

(** Modelled from the spec: [read_line] is a method of [EvParserBase]
    ([ev_parser.py]), which is not among the sources.  It reads the next
    line; with [split] it returns the whitespace-separated tokens of the
    line, without it the trimmed line.  At the end of the stream it fails
    with [TruncatedFileError]. *)
Definition read_line (split : bool)
  : reader (if split then list string else string) :=
  fun fid =>
    match fid with
    | l :: fid' =>
        Ok (match split return (if split then list string else string) with
            | true => Str.split (Str.strip l)
            | false => Str.strip l
            end, fid')
    | [] => Raise TruncatedFileError
    end.

End EvParserBase.

(** The header record of a file: [filetype], [file_format_number] and
    [echoview_version], the three keys of the [file_metadata] dict. *)
Record file_metadata : Set := FileMetadata {
  filetype : string;
  file_format_number : string;
  echoview_version : string
}.

(** ** evl_parser.LineParser *)

Module LineParser.
Section Parse.

(** The type of the values a caller passes as [replace_nan_range_value]
    (numbers; [None] is [option]'s [None]).  A depth is then either the
    [str] token read from the file or such a value. *)
Context {V : Type}.

Inductive depth : Type :=
  | DepthTok (tok : string)
  | DepthVal (v : V).

(** One entry of the [points] dict: the keys ['x'], ['y'], ['status']. *)
Record point : Type := Point {
  x : string;
  y : depth;
  status : string
}.

(** The body of [for i in range(n_points)]; [points[i]] is position [i]
    of the list. *)
Fixpoint read_points (replace_nan_range_value : option V) (n : nat)
  : reader (list point) :=
  match n with
  | O => ret []
  | S n' =>
      let* toks := EvParserBase.read_line true in
      match toks with
      | [date; time; depth_tok; status_tok] =>
          let depth_val :=
            match replace_nan_range_value with
            | Some v =>
                if String.eqb depth_tok "-10000.990000"
                then DepthVal v else DepthTok depth_tok
            | None => DepthTok depth_tok
            end in
          let p := Point ("D" ++ date ++ "T" ++ time) depth_val status_tok in
          let* ps := read_points replace_nan_range_value n' in
          ret (p :: ps)
      | _ => raise ValueError
      end
  end.

Definition _parse (replace_nan_range_value : option V)
  : reader (file_metadata * list point) :=
  let* header := EvParserBase.read_line true in
  match header with
  | [ft; ffn; ev_version] =>
      let md := FileMetadata ft ffn ev_version in
      let* count_line := EvParserBase.read_line false in
      let* n_points := lift (Str.int count_line) in
      let* points := read_points replace_nan_range_value (Z.to_nat n_points) in
      ret (md, points)
  | _ => raise ValueError
  end.

(** A timestamp of a point after [JSON_to_dict]: the [str] of the file, or
    the value [parse_time] made of it. *)
Inductive timestamp : Type :=
  | TimeStr (s : string)
  | TimeVal (t : TimeCodec.instant).

(** A point of the dict that [JSON_to_dict] returns. *)
Record json_point : Type := JsonPoint {
  jx : timestamp;
  jy : depth;
  jstatus : string
}.

(** The dict [data_dict] that [from_JSON] returns: ['metadata'] and
    ['points'], each of which may be missing.  [A] is the type of a
    point. *)
Record line_data (A : Type) : Type := LineData {
  metadata : option file_metadata;
  points : option (list A)
}.
Arguments LineData {A} _ _.
Arguments metadata {A} _.
Arguments points {A} _.

(** A point that [JSON_to_dict] leaves as it is. *)
Definition json_point_of (p : point) : json_point :=
  JsonPoint (TimeStr (x p)) (y p) (status p).

(** [for point in data_dict['points'].values()]: the timestamp is decoded
    first (an exception of [parse_time] ends the call), then the depth is
    replaced.  A depth that is not a [str] is never equal to the
    sentinel. *)
Fixpoint convert_points (convert_time : bool)
    (replace_nan_range_value : option V) (pts : list point)
  : result (list json_point) :=
  match pts with
  | [] => Ok []
  | p :: pts' =>
      try px :=
        (if convert_time
         then try t := TimeCodec.parse_time (x p) in Ok (TimeVal t)
         else Ok (TimeStr (x p))) in
      let py :=
        match replace_nan_range_value, y p with
        | Some v, DepthTok tok =>
            if String.eqb tok "-10000.990000" then DepthVal v else DepthTok tok
        | _, d => d
        end in
      try rest := convert_points convert_time replace_nan_range_value pts' in
      Ok (JsonPoint px py (status p) :: rest)
  end.

(** [JSON_to_dict], from the dict that [self.from_JSON(j)] returned
    ([from_JSON] is a method of [EvParserBase], which is not among the
    sources). *)
Definition JSON_to_dict (data_dict : line_data point) (convert_time : bool)
    (replace_nan_range_value : option V) : result (line_data json_point) :=
  if convert_time || bool_decide (is_Some replace_nan_range_value) then
    match points data_dict with
    | None => Raise ValueError
    | Some pts =>
        try pts' := convert_points convert_time replace_nan_range_value pts in
        Ok (LineData (metadata data_dict) (Some pts'))
    end
  else
    Ok (LineData (metadata data_dict)
          ((λ pts : list point, json_point_of <$> pts) <$> points data_dict)).

End Parse.
Arguments depth V : clear implicits.
Arguments point V : clear implicits.
Arguments json_point V : clear implicits.
Arguments LineData {A} _ _.
Arguments metadata {A} _.
Arguments points {A} _.
End LineParser.

(** ** evr_parser.Region2DParser *)

Module Region2DParser.
Section Parser.

(** The numbers the depth bounds are set to, with Python's [<=] and [>=]
    on them. *)
Context {num : Type} (num_le num_ge : num → num → bool).

(** The Python values that occur as a coordinate of a point: a [str],
    the [float] made from a depth bound, and a decoded time. *)
Inductive pyval : Type :=
  | PyStr (s : string)
  | PyFloat (v : num)
  | PyTime (t : TimeCodec.instant).

(** The two Python sequence types a point is returned as. *)
Inductive pyseq : Type :=
  | PyList (items : list pyval)
  | PyTuple (items : list pyval).

(** A point [[x, y]] of a region while it is being parsed: [x] is a
    [str], [y] a [str] or a [float]. *)
Definition point : Type := string * pyval.

(** The dict [regions[rid]]: each of its four keys is absent ([None])
    until it is assigned.  [points] maps [point_num] = 0, 1, ... to the
    point, so it is the list of the points in that order. *)
Record region : Type := Region {
  metadata : option (gmap string string);
  notes : option (list string);
  detection_settings : option (list string);
  points : option (list point)
}.

Definition empty_region : region := Region None None None None.

(** The dict of one parsed file, [{'metadata': ..., 'regions': ...}]. *)
Record parsed_file : Type := ParsedFile {
  pf_metadata : file_metadata;
  regions : gmap string region
}.

(** The attributes of the parser object that the modelled methods use. *)
Record parser : Type := Parser {
  _min_depth : option num;
  _max_depth : option num;
  output_data : gmap string parsed_file
}.

Definition max_depth (self : parser) : option num := _max_depth self.
Definition min_depth (self : parser) : option num := _min_depth self.

(** [@max_depth.setter]: the outcome of the call and the object after it. *)
Definition set_max_depth (val : num) (self : parser) : result unit * parser :=
  let assign := (Ok tt, Parser (_min_depth self) (Some val) (output_data self)) in
  match _min_depth self with
  | Some lo => if num_le val lo then (Raise ValueError, self) else assign
  | None => assign
  end.

(** [@min_depth.setter] *)
Definition set_min_depth (val : num) (self : parser) : result unit * parser :=
  let assign := (Ok tt, Parser (Some val) (_max_depth self) (output_data self)) in
  match _max_depth self with
  | Some hi => if num_ge val hi then (Raise ValueError, self) else assign
  | None => assign
  end.

(** [line[i]] *)
Definition item (line : list string) (i : nat) : result string :=
  match line !! i with
  | Some tok => Ok tok
  | None => Raise IndexError
  end.

Definition _region_metadata_to_dict (line : list string)
  : result (gmap string string) :=
  try l0 := item line 0 in
  try l1 := item line 1 in
  try l3 := item line 3 in
  try l4 := item line 4 in
  try l5 := item line 5 in
  try l6 := item line 6 in
  try l7 := item line 7 in
  try l8 := item line 8 in
  try l9 := item line 9 in
  try l10 := item line 10 in
  try l11 := item line 11 in
  try l12 := item line 12 in
  Ok (list_to_map
    [ ("structure_version", l0);
      ("point_count", l1);
      ("selected", l3);
      ("creation_type", l4);
      ("dummy", l5);
      ("bounding_rectangle_calculated", l6);
      ("bounding_rectangle_left_x", "D" ++ l7 ++ "T" ++ l8);
      ("bounding_rectangle_top_y", l9);
      ("bounding_rectangle_right_x", "D" ++ l10 ++ "T" ++ l11);
      ("bounding_rectangle_bottom_y", l12) ]).

(** The replacement of the two range-edge values in [_points_to_dict]. *)
Definition range_edge (convert_range_edges : bool) (self : parser)
    (y : string) : pyval :=
  if convert_range_edges then
    match String.eqb y "9999.9900000000", max_depth self with
    | true, Some hi => PyFloat hi
    | _, _ =>
        match String.eqb y "-9999.9900000000", min_depth self with
        | true, Some lo => PyFloat lo
        | _, _ => PyStr y
        end
    end
  else PyStr y.

(** [for point_num, idx in enumerate(range(0, len(line), 3))]: one point
    for each group of three tokens; a last group of one or two tokens
    makes [line[idx + 1]] or [line[idx + 2]] raise [IndexError]. *)
Fixpoint _points_to_dict (convert_range_edges : bool) (self : parser)
    (line : list string) : result (list point) :=
  match line with
  | [] => Ok []
  | date :: time :: y :: line' =>
      let p := ("D" ++ date ++ "T" ++ time,
                range_edge convert_range_edges self y) in
      try ps := _points_to_dict convert_range_edges self line' in
      Ok (p :: ps)
  | _ => Raise IndexError
  end.

(** [regions[rid]] on the [defaultdict(dict)]: a missing key reads as a
    fresh empty dict. *)
Definition getitem (regs : gmap string region) (rid : string) : region :=
  default empty_region (regs !! rid).

(** [regions[rid]['metadata'] = md] and its three siblings. *)
Definition set_metadata (rid : string) (md : gmap string string)
    (regs : gmap string region) : gmap string region :=
  let r := getitem regs rid in
  <[rid := Region (Some md) (notes r) (detection_settings r) (points r)]> regs.

Definition set_notes (rid : string) (ns : list string)
    (regs : gmap string region) : gmap string region :=
  let r := getitem regs rid in
  <[rid := Region (metadata r) (Some ns) (detection_settings r) (points r)]> regs.

Definition set_detection_settings (rid : string) (ds : list string)
    (regs : gmap string region) : gmap string region :=
  let r := getitem regs rid in
  <[rid := Region (metadata r) (notes r) (Some ds) (points r)]> regs.

Definition set_points (rid : string) (ps : list point)
    (regs : gmap string region) : gmap string region :=
  let r := getitem regs rid in
  <[rid := Region (metadata r) (notes r) (detection_settings r) (Some ps)]> regs.

(** [regions[rid]['metadata'][key] = val]: a [KeyError] when the region
    has no ['metadata'] yet. *)
Definition set_metadata_item (rid key val : string)
    (regs : gmap string region) : result (gmap string region) :=
  match metadata (getitem regs rid) with
  | Some md => Ok (set_metadata rid (<[key := val]> md) regs)
  | None => Raise KeyError
  end.

(** [[self.read_line(fid) for l in range(n)]] *)
Fixpoint read_lines (n : nat) : reader (list string) :=
  match n with
  | O => ret []
  | S n' =>
      let* l := EvParserBase.read_line false in
      let* ls := read_lines n' in
      ret (l :: ls)
  end.

(** [points_line.pop()]: the last token and the list without it. *)
Definition pop (line : list string) : result (string * list string) :=
  match last line with
  | Some tok => Ok (tok, removelast line)
  | None => Raise IndexError
  end.

(** The body of [for r in range(n_regions)]. *)
Definition parse_region (convert_range_edges : bool) (self : parser)
    (regs : gmap string region) : reader (gmap string region) :=
  let* _ := EvParserBase.readline in
  let* region_metadata := EvParserBase.read_line true in
  let* rid := lift (item region_metadata 2) in
  let* md := lift (_region_metadata_to_dict region_metadata) in
  let regs := set_metadata rid md regs in
  let* n_note_count := EvParserBase.read_line false in
  let* n_note_lines := lift (Str.int n_note_count) in
  let* note_lines := read_lines (Z.to_nat n_note_lines) in
  let regs := set_notes rid note_lines regs in
  let* n_detection_count := EvParserBase.read_line false in
  let* n_detection_setting_lines := lift (Str.int n_detection_count) in
  let* setting_lines := read_lines (Z.to_nat n_detection_setting_lines) in
  let regs := set_detection_settings rid setting_lines regs in
  let* classification := EvParserBase.read_line false in
  let* regs := lift (set_metadata_item rid "region_classification" classification regs) in
  let* points_line := EvParserBase.read_line true in
  let* popped := lift (pop points_line) in
  let '(type_tok, points_line) := popped in
  let* regs := lift (set_metadata_item rid "type" type_tok regs) in
  let* pts := lift (_points_to_dict convert_range_edges self points_line) in
  let regs := set_points rid pts regs in
  let* name := EvParserBase.read_line false in
  let* regs := lift (set_metadata_item rid "name" name regs) in
  ret regs.

Fixpoint parse_regions (convert_range_edges : bool) (self : parser)
    (n : nat) (regs : gmap string region) : reader (gmap string region) :=
  match n with
  | O => ret regs
  | S n' =>
      let* regs' := parse_region convert_range_edges self regs in
      parse_regions convert_range_edges self n' regs'
  end.

Definition _parse (self : parser) (convert_range_edges : bool)
  : reader (file_metadata * gmap string region) :=
  let* header := EvParserBase.read_line true in
  match header with
  | [ft; ffn; ev_version] =>
      let md := FileMetadata ft ffn ev_version in
      let* count_line := EvParserBase.read_line false in
      let* n_regions := lift (Str.int count_line) in
      let* regs := parse_regions convert_range_edges self (Z.to_nat n_regions) ∅ in
      ret (md, regs)
  | _ => raise ValueError
  end.

(** One row of the [DataFrame] that [pd.read_csv] returns for an exported
    file: the columns [region_id], [x] and [y]. *)
Record csv_row : Type := CsvRow {
  region_id : Z;
  col_x : pyval;
  col_y : pyval
}.

(** What the two file readers return for an existing file: the rows of
    [pd.read_csv], or the tree of [json.load] (the same shape as the dict
    of a parsed file). *)
Inductive file_content : Type :=
  | CsvFile (data : list csv_row)
  | JsonFile (data : parsed_file).

(** [for p in points: p[0] = parse_time(p[0])] *)
Fixpoint convert_times (pts : list point) : result (list (pyval * pyval)) :=
  match pts with
  | [] => Ok []
  | (px, py) :: pts' =>
      try t := TimeCodec.parse_time px in
      try rest := convert_times pts' in
      Ok ((PyTime t, py) :: rest)
  end.

(** [fs] holds the regular files: [os.path.isfile(file)] is
    [is_Some (fs !! file)].  [region] is the [int] id, so [int(region)]
    is [region] and [str(region)] its decimal form.  A file whose content
    is not of the kind its name says is outside the model
    ([ParserError]). *)
Definition get_points_from_region (self : parser)
    (fs : gmap string file_content)
    (region : Z) (file : string) (convert_time : bool)
  : result (list pyseq) :=
  if Str.endswith (Str.upper file) ".CSV" then
    match fs !! file with
    | None => Raise ValueError
    | Some (CsvFile data) =>
        let region_rows := filter (λ r, region_id r = region) data in
        Ok ((λ r, PyTuple [col_x r; col_y r]) <$> region_rows)
    | Some (JsonFile _) => Raise ParserError
    end
  else
    try data :=
      (if Str.endswith (Str.upper file) ".JSON" then
         match fs !! file with
         | None => Raise ValueError
         | Some (JsonFile data) => Ok data
         | Some (CsvFile _) => Raise ParserError
         end
       else
         match output_data self !! file with
         | Some data => Ok data
         | None => Raise KeyError
         end) in
    try reg :=
      match regions data !! pretty region with
      | Some reg => Ok reg
      | None => Raise KeyError
      end in
    try pts :=
      match points reg with
      | Some pts => Ok pts
      | None => Raise KeyError
      end in
    try pts :=
      (if convert_time then convert_times pts
       else Ok ((λ p : point, (PyStr p.1, p.2)) <$> pts)) in
    Ok ((λ l : pyval * pyval, PyList [l.1; l.2]) <$> pts).

(** *** set_range_edge_from_raw *)

Section RangeFromRaw.

(** What the method takes from outside the repository: [isfile] is
    [os.path.isfile]; [raw_range] is the range profile that the echopype
    calls compute from a raw file, the value assigned to
    [self._raw_range]; [range_max] and [range_min] are its
    [.max().values] and [.min().values].  The temporary file that
    echopype writes and the method removes at its end is not part of the
    model. *)
Context {range : Type} (isfile : string → bool)
  (raw_range : string → range) (range_max range_min : range → num).

(** The parser object together with its attribute [_raw_range]. *)
Definition ranged_parser : Type := parser * option range.

(** The outcome of the call and the object after it; [raw] is [None] for
    the default argument.  The two assignments go through the property
    setters, [max_depth] first. *)
Definition set_range_edge_from_raw (raw : option string)
    (self : ranged_parser) : result unit * ranged_parser :=
  match raw with
  | None => (Ok tt, self)
  | Some raw =>
      if Str.endswith raw ".raw" && isfile raw then
        let rng := raw_range raw in
        match set_max_depth (range_max rng) self.1 with
        | (Raise e, self1) => (Raise e, (self1, Some rng))
        | (Ok _, self1) =>
            match set_min_depth (range_min rng) self1 with
            | (Raise e, self2) => (Raise e, (self2, Some rng))
            | (Ok _, self2) => (Ok tt, (self2, Some rng))
            end
        end
      else (Raise ValueError, self)
  end.

End RangeFromRaw.

End Parser.
End Region2DParser.

(** ** Mask conversion between a labelled 2D raster and a one-hot 3D stack *)

Module Mask.
Section Convert.

(** The label values; [==] on them is decidable equality.  A raster cell
    is [None] (not-a-number) or [Some] label. *)
Context {L : Type} `{EqDecision L}.

Local Abbreviation raster := (list (list (option L))).

Local Abbreviation plane := (list (list bool)).

Record one_hot_stack : Type := OneHotStack {
  labels : list L;
  planes : list plane
}.

(** The distinct values of [l] in the order of their first appearance. *)
Fixpoint first_appearance (l : list L) : list L :=
  match l with
  | [] => []
  | a :: l' => a :: filter (λ b, b ≠ a) (first_appearance l')
  end.

(** The plane of label [a]: [raster == a], cell by cell. *)
Definition plane_of (R : raster) (a : L) : plane :=
  (λ row : list (option L),
     (λ c : option L, bool_decide (c = Some a)) <$> row) <$> R.

(** Modelled from the spec: [convert_mask_2d_to_3d] is not among the
    sources.  The labels are the distinct non-empty values of the raster
    in row-major order of first appearance, with one plane per label; an
    all-empty raster gives no label and a single all-false plane. *)
Definition convert_mask_2d_to_3d (R : raster) : one_hot_stack :=
  match first_appearance (omap id (concat R)) with
  | [] => OneHotStack [] [(λ row : list (option L), (λ _, false) <$> row) <$> R]
  | ls => OneHotStack ls (plane_of R <$> ls)
  end.

(** Two planes are both true at some cell. *)
Definition planes_overlap (p q : plane) : bool :=
  existsb (λ rows : list bool * list bool,
             existsb (λ c : bool * bool, c.1 && c.2) (zip rows.1 rows.2))
          (zip p q).

(** Some two distinct planes of the stack overlap. *)
Fixpoint has_overlap (ps : list plane) : bool :=
  match ps with
  | [] => false
  | p :: ps' => existsb (planes_overlap p) ps' || has_overlap ps'
  end.

(** Cell [(i, j)] of a plane. *)
Definition plane_at (p : plane) (i j : nat) : bool :=
  default false (p !! i ≫= (.!! j)).

(** The labels whose plane is true at cell [(i, j)]. *)
Definition labels_at (s : one_hot_stack) (i j : nat) : list L :=
  (filter (λ lp : L * plane, plane_at lp.2 i j = true)
          (zip (labels s) (planes s))).*1.

(** Modelled from the spec: [convert_mask_3d_to_2d] is not among the
    sources.  A stack in which a cell is true in more than one plane is
    refused with [ValueError]; otherwise each cell of the result, which
    has the shape of the planes, is the label whose plane is true there,
    or empty when none is. *)
Definition convert_mask_3d_to_2d (s : one_hot_stack) : result raster :=
  if has_overlap (planes s) then Raise ValueError
  else
    Ok (imap (λ i (row : list bool), imap (λ j (_ : bool), head (labels_at s i j)) row)
             (default [] (head (planes s)))).

End Convert.
Arguments one_hot_stack L : clear implicits.
End Mask.

(** * Definitions used in the statements *)

Section LineRecords.
Context {V : Type}.
Import LineParser.

(** The four tokens of a point record: date, time, depth and status. *)
Definition tokens_of (rec : string * string * string * string) : list string :=
  [rec.1.1.1; rec.1.1.2; rec.1.2; rec.2].

(** The point that the loop body builds from the tokens of one record. *)
Definition point_of (replace : option V)
    (rec : string * string * string * string) : point V :=
  Point ("D" ++ rec.1.1.1 ++ "T" ++ rec.1.1.2)
        (match replace with
         | Some v =>
             if String.eqb rec.1.2 "-10000.990000"
             then DepthVal v else DepthTok rec.1.2
         | None => DepthTok rec.1.2
         end)
        rec.2.

End LineRecords.

Section RegionBlockLines.
Context {num : Type}.
Import Region2DParser.

Implicit Types (self : parser (num := num)) (regs : gmap string (region (num := num))).

(** The lines of one region block: the separator line, the region header,
    the notes with their count, the detection settings with their count,
    the classification, the points line and the name. *)
Definition block_lines (blank header n_notes : string) (note_lines : list string)
    (n_settings : string) (setting_lines : list string)
    (classification points_line name : string) : list string :=
  (blank :: header :: n_notes :: note_lines
   ++ n_settings :: setting_lines
   ++ [classification; points_line; name])%list.

(** The reads of [parse_region] in the same order, returning the id of the
    block and the region dict that the assignments of the loop body leave
    under that id. *)
Definition read_block (convert_range_edges : bool) self
  : reader (string * region (num := num)) :=
  let* _ := EvParserBase.readline in
  let* region_metadata := EvParserBase.read_line true in
  let* rid := lift (item region_metadata 2) in
  let* md := lift (_region_metadata_to_dict region_metadata) in
  let* n_note_count := EvParserBase.read_line false in
  let* n_note_lines := lift (Str.int n_note_count) in
  let* note_lines := read_lines (Z.to_nat n_note_lines) in
  let* n_detection_count := EvParserBase.read_line false in
  let* n_detection_setting_lines := lift (Str.int n_detection_count) in
  let* setting_lines := read_lines (Z.to_nat n_detection_setting_lines) in
  let* classification := EvParserBase.read_line false in
  let* points_line := EvParserBase.read_line true in
  let* popped := lift (pop points_line) in
  let* pts := lift (_points_to_dict convert_range_edges self popped.2) in
  let* name := EvParserBase.read_line false in
  ret (rid,
       Region (Some (<["name" := name]>
                      (<["type" := popped.1]>
                        (<["region_classification" := classification]> md))))
              (Some note_lines) (Some setting_lines) (Some pts)).

(** [blocks_parse b self fid blocks fid']: the lines [fid] hold one region
    block after the other and then [fid']; each block, parsed by the loop
    body on its own from an empty mapping, gives the single entry listed
    for it in [blocks]. *)
Inductive blocks_parse (b : bool) self
  : list string → list (string * region (num := num)) → list string → Prop :=
  | blocks_nil fid : blocks_parse b self fid [] fid
  | blocks_cons fid fid' fid'' rid reg blocks :
      parse_region b self ∅ fid = Ok ({[rid := reg]}, fid') →
      blocks_parse b self fid' blocks fid'' →
      blocks_parse b self fid ((rid, reg) :: blocks) fid''.

(** The mapping after the blocks have been stored one after the other. *)
Definition store_blocks regs (blocks : list (string * region (num := num)))
  : gmap string region :=
  foldl (λ m block, <[block.1 := block.2]> m) regs blocks.

End RegionBlockLines.

Section SetterCalls.
Context {num : Type} (num_le num_ge : num → num → bool).
Import Region2DParser.

(** One assignment to a depth bound of a parser. *)
Inductive setter_call : Type :=
  | SetMaxDepth (val : num)
  | SetMinDepth (val : num).

Definition call_setter (c : setter_call) (self : parser (num := num))
  : result unit * parser :=
  match c with
  | SetMaxDepth val => set_max_depth num_le val self
  | SetMinDepth val => set_min_depth num_ge val self
  end.

(** The parser after the assignments [cs], made one after the other by a
    caller that goes on after a [ValueError]. *)
Definition call_setters (cs : list setter_call) (self : parser (num := num))
  : parser :=
  foldl (λ s c, (call_setter c s).2) self cs.

(** When both bounds are set, [max_depth <= min_depth] is false. *)
Definition bounds_ordered (self : parser (num := num)) : Prop :=
  ∀ lo hi, _min_depth self = Some lo → _max_depth self = Some hi →
    num_le hi lo = false.

End SetterCalls.

Section RegionShape.
Context {num : Type}.
Import Region2DParser.

(** The keys that [_region_metadata_to_dict] gives the metadata dict. *)
Definition region_header_keys : list string :=
  [ "structure_version"; "point_count"; "selected"; "creation_type";
    "dummy"; "bounding_rectangle_calculated"; "bounding_rectangle_left_x";
    "bounding_rectangle_top_y"; "bounding_rectangle_right_x";
    "bounding_rectangle_bottom_y" ].

(** The keys of the metadata dict of a region after its block was read. *)
Definition region_metadata_keys : gset string :=
  list_to_set (region_header_keys ++ ["region_classification"; "type"; "name"]).

(** A region dict with its four keys, whose metadata has exactly the keys
    above. *)
Definition region_complete (reg : region (num := num)) : Prop :=
  ∃ md, metadata reg = Some md
    ∧ dom md = region_metadata_keys
    ∧ is_Some (notes reg)
    ∧ is_Some (detection_settings reg)
    ∧ is_Some (points reg).

End RegionShape.

Section RasterCells.
Context {L : Type}.

Implicit Types (R : list (list (option L))).

(** Cell [(i, j)] of a raster, when the raster has it. *)
Definition cell R (i j : nat) : option (option L) := R !! i ≫= (.!! j).

End RasterCells.

(** The files and the parsed data of the examples below: the region 1 of
    the file x1, with one point whose depth is the float 250.0, exported
    to x1.csv and to x1.json. *)
Definition x1_point : Region2DParser.point (num := Z) :=
  ("D20170625T1539223320", Region2DParser.PyFloat 250).

Definition x1_data : Region2DParser.parsed_file (num := Z) :=
  Region2DParser.ParsedFile (FileMetadata "EVR" "4" "12.0.341.42620")
    {["1" := Region2DParser.Region (Some ∅) (Some []) (Some []) (Some [x1_point])]}.

Definition x1_files : gmap string (Region2DParser.file_content (num := Z)) :=
  {["x1.csv" := Region2DParser.CsvFile
      [Region2DParser.CsvRow 1 (Region2DParser.PyStr "D20170625T1539223320")
         (Region2DParser.PyFloat 250)];
    "x1.json" := Region2DParser.JsonFile x1_data]}.

Definition x1_parser : Region2DParser.parser (num := Z) :=
  Region2DParser.Parser None None {["x1" := x1_data]}.

(** The file system and the ranges of the examples below: a.raw with the
    range 0 .. 250, b.raw with the single value 7. *)
Definition raw_files (raw : string) : bool :=
  String.eqb raw "a.raw" || String.eqb raw "b.raw".

Definition raw_ranges (raw : string) : Z * Z :=
  if String.eqb raw "a.raw" then (0, 250) else (7, 7).

(** * Properties *)

(** ** Time decoding *)

(** C9: decoding the composite timestamp string "20170625 1539223320" with
    [parse_time] gives the instant 2017-06-25T15:39:22.3320; the trailing
    four digits of the time are the sub-second part in units of 0.1 ms. *)
Theorem parse_time_literal :
  TimeCodec.parse_time "20170625 1539223320"
  = Ok (TimeCodec.Instant 2017 6 25 15 39 22 3320).
Proof. reflexivity. Qed.

(** ** The depth bounds of the region parser *)

Section DepthBounds.
Context {num : Type} (num_le num_ge : num → num → bool).
Import Region2DParser.

Lemma set_max_depth_rejects (self : parser (num := num)) val lo :
  _min_depth self = Some lo → num_le val lo = true →
  set_max_depth num_le val self = (Raise ValueError, self).
Proof. intros Hlo Hle. unfold set_max_depth. by rewrite Hlo, Hle. Qed.

Lemma set_min_depth_rejects (self : parser (num := num)) val hi :
  _max_depth self = Some hi → num_ge val hi = true →
  set_min_depth num_ge val self = (Raise ValueError, self).
Proof. intros Hhi Hge. unfold set_min_depth. by rewrite Hhi, Hge. Qed.

Lemma set_max_depth_accepts (self : parser (num := num)) val :
  (∀ lo, _min_depth self = Some lo → num_le val lo = false) →
  set_max_depth num_le val self
  = (Ok tt, Parser (_min_depth self) (Some val) (output_data self)).
Proof.
  intros Hok. unfold set_max_depth.
  destruct (_min_depth self) as [lo|]; [|done].
  by rewrite (Hok lo eq_refl).
Qed.

Lemma set_min_depth_accepts (self : parser (num := num)) val :
  (∀ hi, _max_depth self = Some hi → num_ge val hi = false) →
  set_min_depth num_ge val self
  = (Ok tt, Parser (Some val) (_max_depth self) (output_data self)).
Proof.
  intros Hok. unfold set_min_depth.
  destruct (_max_depth self) as [hi|]; [|done].
  by rewrite (Hok hi eq_refl).
Qed.

(** C5: in every parser state, setting [max_depth] to a value [<=] a
    [min_depth] that is set, or [min_depth] to a value [>=] a [max_depth]
    that is set, raises [ValueError] and leaves the object as it was;
    every other call of a setter succeeds and changes the targeted bound
    only. *)
Theorem depth_setters_guard (self : parser (num := num)) (val : num) :
  (∀ lo, _min_depth self = Some lo → num_le val lo = true →
     set_max_depth num_le val self = (Raise ValueError, self))
  ∧ (∀ hi, _max_depth self = Some hi → num_ge val hi = true →
     set_min_depth num_ge val self = (Raise ValueError, self))
  ∧ ((∀ lo, _min_depth self = Some lo → num_le val lo = false) →
     ∃ self', set_max_depth num_le val self = (Ok tt, self')
       ∧ _max_depth self' = Some val
       ∧ _min_depth self' = _min_depth self
       ∧ output_data self' = output_data self)
  ∧ ((∀ hi, _max_depth self = Some hi → num_ge val hi = false) →
     ∃ self', set_min_depth num_ge val self = (Ok tt, self')
       ∧ _min_depth self' = Some val
       ∧ _max_depth self' = _max_depth self
       ∧ output_data self' = output_data self).
Proof.
  split_and!.
  - apply set_max_depth_rejects.
  - apply set_min_depth_rejects.
  - intros Hok. eexists. split; [by apply set_max_depth_accepts|done].
  - intros Hok. eexists. split; [by apply set_min_depth_accepts|done].
Qed.

End DepthBounds.

(** C5 at max_depth = 10, min_depth = 5: lowering the maximum to 3 and
    raising the minimum to 10 are refused, 20 and 7 are accepted. *)
Lemma depth_setters_guard_witness :
  let self := Region2DParser.Parser (Some 5) (Some 10) ∅ in
  Region2DParser.set_max_depth Z.leb 3 self = (Raise ValueError, self)
  ∧ Region2DParser.set_min_depth Z.geb 10 self = (Raise ValueError, self)
  ∧ Region2DParser.set_max_depth Z.leb 20 self
    = (Ok tt, Region2DParser.Parser (Some 5) (Some 20) ∅)
  ∧ Region2DParser.set_min_depth Z.geb 7 self
    = (Ok tt, Region2DParser.Parser (Some 7) (Some 10) ∅).
Proof.
  intros self.
  pose proof (depth_setters_guard Z.leb Z.geb self 3) as (H1 & _).
  pose proof (depth_setters_guard Z.leb Z.geb self 10) as (_ & H2 & _).
  split_and!.
  - exact (H1 5 eq_refl eq_refl).
  - exact (H2 10 eq_refl eq_refl).
  - reflexivity.
  - reflexivity.
Defined.

(** ** Range edges in the points of a region *)

Section RangeEdges.
Context {num : Type}.
Import Region2DParser.

Local Open Scope nat_scope.

Lemma range_edge_max (self : parser (num := num)) hi :
  max_depth self = Some hi →
  range_edge true self "9999.9900000000" = PyFloat hi.
Proof. intros Hhi. unfold range_edge. simpl. by rewrite Hhi. Qed.

Lemma range_edge_min (self : parser (num := num)) lo :
  min_depth self = Some lo →
  range_edge true self "-9999.9900000000" = PyFloat lo.
Proof.
  intros Hlo. unfold range_edge. simpl. rewrite Hlo.
  by destruct (max_depth self).
Qed.

Lemma range_edge_max_unset (self : parser (num := num)) :
  max_depth self = None →
  range_edge true self "9999.9900000000" = PyStr "9999.9900000000".
Proof.
  intros Hhi. unfold range_edge. simpl. rewrite Hhi.
  by destruct (min_depth self).
Qed.

Lemma range_edge_min_unset (self : parser (num := num)) :
  min_depth self = None →
  range_edge true self "-9999.9900000000" = PyStr "-9999.9900000000".
Proof.
  intros Hlo. unfold range_edge. simpl. rewrite Hlo.
  by destruct (max_depth self).
Qed.

Lemma range_edge_other (self : parser (num := num)) b y :
  y ≠ "9999.9900000000" → y ≠ "-9999.9900000000" →
  range_edge b self y = PyStr y.
Proof.
  intros Hmax Hmin. unfold range_edge.
  apply String.eqb_neq in Hmax, Hmin. rewrite Hmax, Hmin.
  by destruct b.
Qed.

(** A points line of [3 * k] tokens always converts, to [k] points, and
    point [i] is made of the tokens [3i], [3i + 1] and [3i + 2]. *)
Lemma points_to_dict_groups b (self : parser (num := num)) k :
  ∀ line : list string, length line = 3 * k →
  ∃ pts, _points_to_dict b self line = Ok pts
    ∧ length pts = k
    ∧ ∀ i date time y,
        line !! (3 * i) = Some date →
        line !! (3 * i + 1) = Some time →
        line !! (3 * i + 2) = Some y →
        pts !! i = Some ("D" ++ date ++ "T" ++ time, range_edge b self y)%string.
Proof.
  induction k as [|k IH]; intros line Hlen.
  - destruct line; [|simpl in Hlen; lia].
    exists []. split_and!; [done..|]. by intros i ????; rewrite lookup_nil.
  - destruct line as [|d [|t [|y0 line']]]; simpl in Hlen; try lia.
    destruct (IH line' ltac:(lia)) as (pts & Hpts & Hk & Hlook).
    exists (("D" ++ d ++ "T" ++ t, range_edge b self y0)%string :: pts).
    split_and!.
    + simpl. by rewrite Hpts.
    + simpl. by rewrite Hk.
    + intros [|i] date time y Hd Ht Hy.
      * simpl in Hd, Ht, Hy. by simplify_eq.
      * replace (3 * S i) with (S (S (S (3 * i)))) in * by lia.
        simpl in Hd, Ht, Hy. simpl. by apply Hlook.
Qed.

(** C4: for every point of a region parsed with [convert_range_edges]
    true, a depth token equal to '9999.9900000000' becomes the [float] of
    [max_depth] when that bound is set, a token equal to
    '-9999.9900000000' becomes the [float] of [min_depth] when that bound
    is set, a range-edge token whose bound is unset stays the same string
    and no error is raised, and every other depth token passes through
    unchanged. *)
Theorem range_edges_substituted (self : parser (num := num))
    (line : list string) (k : nat) :
  length line = 3 * k →
  ∃ pts, _points_to_dict true self line = Ok pts
    ∧ length pts = k
    ∧ ∀ i date time y,
        line !! (3 * i) = Some date →
        line !! (3 * i + 1) = Some time →
        line !! (3 * i + 2) = Some y →
        ∃ y', pts !! i = Some ("D" ++ date ++ "T" ++ time, y')%string
          ∧ (y = "9999.9900000000" →
               match max_depth self with
               | Some hi => y' = PyFloat hi
               | None => y' = PyStr y
               end)
          ∧ (y = "-9999.9900000000" →
               match min_depth self with
               | Some lo => y' = PyFloat lo
               | None => y' = PyStr y
               end)
          ∧ (y ≠ "9999.9900000000" → y ≠ "-9999.9900000000" →
               y' = PyStr y).
Proof.
  intros Hlen.
  destruct (points_to_dict_groups true self k line Hlen)
    as (pts & Hpts & Hk & Hlook).
  exists pts. split_and!; [done..|].
  intros i date time y Hd Ht Hy.
  exists (range_edge true self y). split_and!.
  - by apply Hlook.
  - intros ->. destruct (max_depth self) as [hi|] eqn:Hhi.
    + by apply range_edge_max.
    + by apply range_edge_max_unset.
  - intros ->. destruct (min_depth self) as [lo|] eqn:Hlo.
    + by apply range_edge_min.
    + by apply range_edge_min_unset.
  - apply range_edge_other.
Qed.

End RangeEdges.

(** C4 on a line of three points with max_depth = 250 set and min_depth
    unset: the upper edge becomes 250.0, the lower edge stays a string. *)
Lemma range_edges_substituted_witness :
  let self := Region2DParser.Parser None (Some 250) ∅ in
  ∃ pts,
    Region2DParser._points_to_dict true self
      ["20170625"; "1539223320"; "9999.9900000000";
       "20170625"; "1539223420"; "-9999.9900000000";
       "20170625"; "1539223520"; "102.2552007996"] = Ok pts
    ∧ pts = [("D20170625T1539223320", Region2DParser.PyFloat 250);
             ("D20170625T1539223420", Region2DParser.PyStr "-9999.9900000000");
             ("D20170625T1539223520", Region2DParser.PyStr "102.2552007996")].
Proof.
  intros self.
  destruct (range_edges_substituted self
    ["20170625"; "1539223320"; "9999.9900000000";
     "20170625"; "1539223420"; "-9999.9900000000";
     "20170625"; "1539223520"; "102.2552007996"] 3 eq_refl)
    as (pts & Hpts & _).
  exists pts. split; [exact Hpts|].
  vm_compute in Hpts. by injection Hpts as <-.
Defined.

(** ** Points of a line file *)

Section LinePoints.
Context {V : Type}.
Import LineParser.

Lemma read_points_records (replace : option V) recs :
  ∀ lines rest,
    Forall2 (λ line rec, Str.split (Str.strip line) = tokens_of rec) lines recs →
    read_points replace (length recs) (lines ++ rest)%list
    = Ok (point_of replace <$> recs, rest).
Proof.
  induction recs as [|rec recs IH]; intros lines rest Hall.
  - by apply Forall2_nil_inv_r in Hall as ->.
  - apply Forall2_cons_inv_r in Hall as (line & lines' & Htok & Hall & ->).
    cbn [length read_points]. unfold bind at 1. simpl.
    rewrite Htok. unfold tokens_of.
    unfold bind. rewrite (IH _ _ Hall). done.
Qed.

Lemma point_of_depth (replace : option V) rec :
  (∃ v, replace = Some v ∧ rec.1.2 = "-10000.990000"
        ∧ y (point_of replace rec) = DepthVal v)
  ∨ ((replace = None ∨ rec.1.2 ≠ "-10000.990000")
     ∧ y (point_of replace rec) = DepthTok rec.1.2).
Proof.
  unfold point_of. simpl. destruct replace as [v|].
  - destruct (String.eqb_spec rec.1.2 "-10000.990000") as [Heq|Hne].
    + left. by exists v.
    + right. split; [by right|done].
  - right. split; [by left|done].
Qed.

(** C3: a line file whose header has three tokens, whose count line holds
    the number of point records that follow, and whose records have four
    tokens each, parses; point [i] of the result has the timestamp
    'D{date}T{time}' and the status token of record [i], and its depth is
    the replacement value exactly when a replacement value was given and
    the depth token is '-10000.990000', and the depth token unchanged
    otherwise.  The file with header 'EVL 7 1.0.0', count 1 and point
    '20170625 1539223320 -10000.990000 1' parsed with replacement value 0
    gives one point with depth 0 and status '1'. *)
Theorem line_depth_replaced :
  (∀ (replace : option V) header count_line lines rest ft ffn ev recs,
      Str.split (Str.strip header) = [ft; ffn; ev] →
      Str.int (Str.strip count_line) = Ok (Z.of_nat (length recs)) →
      Forall2 (λ line rec, Str.split (Str.strip line) = tokens_of rec)
              lines recs →
      ∃ points,
        _parse replace (header :: count_line :: (lines ++ rest)%list)
        = Ok (FileMetadata ft ffn ev, points, rest)
        ∧ length points = length recs
        ∧ ∀ i date time depth_tok status_tok,
            recs !! i = Some (date, time, depth_tok, status_tok) →
            ∃ p, points !! i = Some p
              ∧ x p = "D" ++ date ++ "T" ++ time
              ∧ status p = status_tok
              ∧ ((∃ v, replace = Some v ∧ depth_tok = "-10000.990000"
                       ∧ y p = DepthVal v)
                 ∨ ((replace = None ∨ depth_tok ≠ "-10000.990000")
                    ∧ y p = DepthTok depth_tok)))
  ∧ LineParser._parse (Some 0)
      ["EVL 7 1.0.0"; "1"; "20170625 1539223320 -10000.990000 1"]
    = Ok (FileMetadata "EVL" "7" "1.0.0",
          [Point "D20170625T1539223320" (DepthVal 0) "1"], []).
Proof.
  split; [|reflexivity].
  intros replace header count_line lines rest ft ffn ev recs Hhdr Hcnt Hall.
  exists (point_of replace <$> recs). split_and!.
  - unfold _parse, bind. simpl. rewrite Hhdr. simpl.
    unfold lift. rewrite Hcnt. rewrite Nat2Z.id.
    by rewrite (read_points_records replace recs lines rest Hall).
  - by rewrite length_fmap.
  - intros i date time depth_tok status_tok Hrec.
    exists (point_of replace (date, time, depth_tok, status_tok)).
    split_and!; [by rewrite list_lookup_fmap, Hrec|done..|].
    apply (point_of_depth replace (date, time, depth_tok, status_tok)).
Qed.

End LinePoints.

(** C3 on a file of two points read with the replacement value 0: the
    first depth is replaced, the second passes through. *)
Lemma line_depth_replaced_witness :
  ∃ points,
    LineParser._parse (Some 0)
      ["EVL 7 1.0.0"; "2"; "20170625 1539223320 -10000.990000 1";
       "20170625 1539223420 9.2447583998 3"]
    = Ok (FileMetadata "EVL" "7" "1.0.0", points, [])
    ∧ length points = 2%nat.
Proof.
  destruct (proj1 (line_depth_replaced (V := Z)) (Some 0)
              "EVL 7 1.0.0" "2"
              ["20170625 1539223320 -10000.990000 1";
               "20170625 1539223420 9.2447583998 3"] []
              "EVL" "7" "1.0.0"
              [("20170625", "1539223320", "-10000.990000", "1");
               ("20170625", "1539223420", "9.2447583998", "3")]
              eq_refl eq_refl)
    as (points & Hparse & Hlen & _).
  - repeat constructor.
  - exists points. split; [exact Hparse|exact Hlen].
Defined.

(** ** Region blocks *)

Section RegionBlocks.
Context {num : Type}.
Import Region2DParser.

Implicit Types (self : parser (num := num)) (regs : gmap string (region (num := num))).

(** *** Reading with the reader *)

Lemma bind_ok {A B} (m : reader A) (k : A → reader B) fid a fid' :
  m fid = Ok (a, fid') → bind m k fid = k a fid'.
Proof. intros Hm. unfold bind. by rewrite Hm. Qed.

Lemma read_lines_app (ls rest : list string) :
  read_lines (length ls) (ls ++ rest)%list = Ok (Str.strip <$> ls, rest).
Proof.
  induction ls as [|l ls IH]; [done|].
  cbn [length read_lines app]. unfold bind at 1. simpl.
  unfold bind. by rewrite IH.
Qed.

Lemma pop_snoc (toks : list string) (tok : string) :
  pop (toks ++ [tok])%list = Ok (tok, toks).
Proof. unfold pop. by rewrite last_snoc, removelast_last. Qed.

Lemma item_lookup (line : list string) i tok :
  line !! i = Some tok → item line i = Ok tok.
Proof. intros Hi. unfold item. by rewrite Hi. Qed.

Lemma region_metadata_to_dict_ok (line : list string) :
  (13 ≤ length line)%nat → ∃ md, _region_metadata_to_dict line = Ok md.
Proof.
  intros Hlen.
  do 13 (destruct line as [|? line]; [simpl in Hlen; lia|]).
  eexists. reflexivity.
Qed.

(** *** Updates of the [regions] mapping *)

Lemma getitem_insert regs rid (r : region (num := num)) :
  getitem (<[rid := r]> regs) rid = r.
Proof. unfold getitem. by rewrite lookup_insert_eq. Qed.

Lemma set_notes_insert regs rid ns md n d p :
  set_notes rid ns (<[rid := Region md n d p]> regs)
  = <[rid := Region md (Some ns) d p]> regs.
Proof.
  unfold set_notes. rewrite getitem_insert. simpl. apply insert_insert_eq.
Qed.

Lemma set_detection_settings_insert regs rid ds md n d p :
  set_detection_settings rid ds (<[rid := Region md n d p]> regs)
  = <[rid := Region md n (Some ds) p]> regs.
Proof.
  unfold set_detection_settings. rewrite getitem_insert. simpl.
  apply insert_insert_eq.
Qed.

Lemma set_points_insert regs rid ps md n d p :
  set_points rid ps (<[rid := Region md n d p]> regs)
  = <[rid := Region md n d (Some ps)]> regs.
Proof.
  unfold set_points. rewrite getitem_insert. simpl. apply insert_insert_eq.
Qed.

Lemma set_metadata_item_insert regs rid key val md n d p :
  set_metadata_item rid key val (<[rid := Region (Some md) n d p]> regs)
  = Ok (<[rid := Region (Some (<[key := val]> md)) n d p]> regs).
Proof.
  unfold set_metadata_item, set_metadata. rewrite getitem_insert. simpl.
  by rewrite insert_insert_eq.
Qed.

(** *** A region block read on its own *)

(** The loop body stores under the id of the block exactly the region that
    the block holds, whatever the mapping held before. *)
Lemma parse_region_read_block b self regs fid :
  parse_region b self regs fid
  = match read_block b self fid with
    | Ok ((rid, reg), fid') => Ok (<[rid := reg]> regs, fid')
    | Raise e => Raise e
    end.
Proof.
  unfold parse_region, read_block, bind, lift, ret.
  destruct (EvParserBase.readline fid) as [[blank fid1]|]; [|done].
  destruct (EvParserBase.read_line true fid1) as [[toks fid2]|]; [|done].
  destruct (item toks 2) as [rid|]; [|done].
  destruct (_region_metadata_to_dict toks) as [md|]; [|done].
  destruct (EvParserBase.read_line false fid2) as [[nc fid3]|]; [|done].
  destruct (Str.int nc) as [nn|]; [|done].
  destruct (read_lines (Z.to_nat nn) fid3) as [[ns fid4]|]; [|done].
  destruct (EvParserBase.read_line false fid4) as [[dc fid5]|]; [|done].
  destruct (Str.int dc) as [dn|]; [|done].
  destruct (read_lines (Z.to_nat dn) fid5) as [[ds fid6]|]; [|done].
  destruct (EvParserBase.read_line false fid6) as [[cls fid7]|]; [|done].
  unfold set_metadata at 1.
  rewrite set_notes_insert, set_detection_settings_insert,
    set_metadata_item_insert.
  destruct (EvParserBase.read_line true fid7) as [[pl fid8]|]; [|done].
  destruct (pop pl) as [[ty pl']|]; [|done].
  rewrite set_metadata_item_insert. simpl.
  destruct (_points_to_dict b self pl') as [pts|]; [|done].
  rewrite set_points_insert.
  destruct (EvParserBase.read_line false fid8) as [[name fid9]|]; [|done].
  by rewrite set_metadata_item_insert.
Qed.

(** A block that parses into the empty mapping parses into any mapping,
    and overwrites the entry of its id. *)
Lemma parse_region_overwrites b self fid fid' rid reg :
  parse_region b self ∅ fid = Ok ({[rid := reg]}, fid') →
  ∀ regs, parse_region b self regs fid = Ok (<[rid := reg]> regs, fid').
Proof.
  intros Hblock regs. rewrite parse_region_read_block in Hblock |- *.
  destruct (read_block b self fid) as [[[rid' reg'] fid'']|]; [|done].
  assert (<[rid' := reg']> (∅ : gmap string region) = {[rid := reg]}
          ∧ fid'' = fid') as [Hmap ->] by (split; congruence).
  assert (({[rid := reg]} : gmap string region) !! rid' = Some reg') as Hlook.
  { rewrite <- Hmap. apply lookup_insert_eq. }
  apply lookup_singleton_Some in Hlook as [-> ->]. done.
Qed.

Lemma lift_ok {A} (r : result A) (a : A) fid :
  r = Ok a → lift r fid = Ok (a, fid).
Proof. intros ->. done. Qed.

(** *** The points line of a block *)

Lemma block_lines_app blank header n_notes note_lines n_settings setting_lines
    classification points_line name (rest : list string) :
  (block_lines blank header n_notes note_lines n_settings setting_lines
     classification points_line name ++ rest
   = blank :: header :: n_notes :: note_lines
     ++ n_settings :: setting_lines
     ++ classification :: points_line :: name :: rest)%list.
Proof.
  unfold block_lines. cbn [app]. do 3 f_equal.
  rewrite <- app_assoc. cbn [app]. do 2 f_equal.
  by rewrite <- app_assoc.
Qed.

Lemma read_block_lines b self blank header n_notes note_lines n_settings
    setting_lines classification points_line name rest htoks rid md toks
    type_tok pts :
  Str.split (Str.strip header) = htoks →
  htoks !! 2%nat = Some rid →
  _region_metadata_to_dict htoks = Ok md →
  Str.int (Str.strip n_notes) = Ok (Z.of_nat (length note_lines)) →
  Str.int (Str.strip n_settings) = Ok (Z.of_nat (length setting_lines)) →
  Str.split (Str.strip points_line) = (toks ++ [type_tok])%list →
  _points_to_dict b self toks = Ok pts →
  read_block b self
    (block_lines blank header n_notes note_lines n_settings setting_lines
       classification points_line name ++ rest)%list
  = Ok (rid,
        Region (Some (<["name" := Str.strip name]>
                       (<["type" := type_tok]>
                         (<["region_classification" := Str.strip classification]>
                           md))))
               (Some (Str.strip <$> note_lines))
               (Some (Str.strip <$> setting_lines)) (Some pts),
        rest).
Proof.
  intros Hsplit Hrid Hmd Hnotes Hsettings Hpoints Hpts.
  rewrite block_lines_app. unfold read_block.
  erewrite bind_ok by reflexivity.
  erewrite bind_ok by reflexivity. cbv iota. rewrite Hsplit.
  erewrite bind_ok by (apply lift_ok, item_lookup, Hrid).
  erewrite bind_ok by (apply lift_ok, Hmd).
  erewrite bind_ok by reflexivity. cbv iota.
  erewrite bind_ok by (apply lift_ok, Hnotes).
  rewrite Nat2Z.id.
  erewrite bind_ok by apply read_lines_app.
  erewrite bind_ok by reflexivity. cbv iota.
  erewrite bind_ok by (apply lift_ok, Hsettings).
  rewrite Nat2Z.id.
  erewrite bind_ok by apply read_lines_app.
  erewrite bind_ok by reflexivity. cbv iota.
  erewrite bind_ok by reflexivity. cbv iota. rewrite Hpoints.
  erewrite bind_ok by (apply lift_ok, pop_snoc). cbn [fst snd].
  erewrite bind_ok by (apply lift_ok, Hpts).
  erewrite bind_ok by reflexivity. cbv iota.
  reflexivity.
Qed.

(** C6: for every region block whose points line splits into [3k + 1]
    tokens, [_parse] stores the last token as the region's 'type' in its
    metadata and reads the other [3k] tokens in consecutive groups of three
    (date, time, depth) into exactly [k] points, in order.  This holds for
    the loop body run on the block from any mapping, and so for the whole
    [_parse] of a file whose only region is the block. *)
Theorem region_type_and_points b self blank header n_notes note_lines
    n_settings setting_lines classification points_line name rest
    htoks rid toks type_tok k :
  Str.split (Str.strip header) = htoks →
  htoks !! 2%nat = Some rid →
  (13 ≤ length htoks)%nat →
  Str.int (Str.strip n_notes) = Ok (Z.of_nat (length note_lines)) →
  Str.int (Str.strip n_settings) = Ok (Z.of_nat (length setting_lines)) →
  Str.split (Str.strip points_line) = (toks ++ [type_tok])%list →
  length toks = (3 * k)%nat →
  let block :=
    block_lines blank header n_notes note_lines n_settings setting_lines
      classification points_line name in
  ∃ reg md pts,
    (∀ regs, ∃ regs',
        parse_region b self regs (block ++ rest)%list = Ok (regs', rest)
        ∧ regs' !! rid = Some reg)
    ∧ (∀ file_header count_line ft ffn ev,
        Str.split (Str.strip file_header) = [ft; ffn; ev] →
        Str.int (Str.strip count_line) = Ok 1 →
        ∃ regs',
          _parse self b (file_header :: count_line :: block ++ rest)%list
          = Ok (FileMetadata ft ffn ev, regs', rest)
          ∧ regs' !! rid = Some reg)
    ∧ metadata reg = Some md
    ∧ md !! "type" = Some type_tok
    ∧ points reg = Some pts
    ∧ length pts = k
    ∧ ∀ i date time y,
        toks !! (3 * i)%nat = Some date →
        toks !! (3 * i + 1)%nat = Some time →
        toks !! (3 * i + 2)%nat = Some y →
        pts !! i = Some ("D" ++ date ++ "T" ++ time, range_edge b self y).
Proof.
  intros Hsplit Hrid Hlen Hnotes Hsettings Hpoints Htoks block.
  destruct (region_metadata_to_dict_ok htoks Hlen) as [md Hmd].
  destruct (points_to_dict_groups b self k toks Htoks)
    as (pts & Hpts & Hk & Hgroups).
  pose proof (read_block_lines b self blank header n_notes note_lines
    n_settings setting_lines classification points_line name rest htoks rid
    md toks type_tok pts Hsplit Hrid Hmd Hnotes Hsettings Hpoints Hpts)
    as Hblock.
  fold block in Hblock.
  eexists _, _, pts. split_and!.
  - intros regs. eexists. split.
    + rewrite parse_region_read_block. by rewrite Hblock.
    + apply lookup_insert_eq.
  - intros file_header count_line ft ffn ev Hfh Hcount. eexists. split.
    + unfold _parse.
      erewrite bind_ok by reflexivity. cbv iota. rewrite Hfh.
      erewrite bind_ok by reflexivity. cbv iota.
      erewrite bind_ok by (apply lift_ok, Hcount).
      change (Z.to_nat 1) with 1%nat. cbn [parse_regions].
      erewrite bind_ok; [reflexivity|].
      erewrite bind_ok; [reflexivity|].
      rewrite parse_region_read_block. by rewrite Hblock.
    + apply lookup_insert_eq.
  - reflexivity.
  - rewrite lookup_insert_ne by done. apply lookup_insert_eq.
  - reflexivity.
  - exact Hk.
  - exact Hgroups.
Qed.

Lemma read_block_alone b self fid rid reg fid' :
  read_block b self fid = Ok (rid, reg, fid') →
  parse_region b self ∅ fid = Ok ({[rid := reg]}, fid').
Proof.
  intros Hblock. rewrite parse_region_read_block, Hblock.
  by rewrite insert_empty.
Qed.

(** *** Blocks that carry the same region id *)

Lemma parse_regions_blocks b self fid blocks fid' :
  blocks_parse b self fid blocks fid' →
  ∀ regs, parse_regions b self (length blocks) regs fid
          = Ok (store_blocks regs blocks, fid').
Proof.
  induction 1 as [fid|fid fid' fid'' rid reg blocks Hblock _ IH]; intros regs.
  - done.
  - cbn [length parse_regions].
    erewrite bind_ok by (by apply parse_region_overwrites).
    apply IH.
Qed.

Lemma store_blocks_other regs blocks rid :
  rid ∉ blocks.*1 → store_blocks regs blocks !! rid = regs !! rid.
Proof.
  revert regs. induction blocks as [|[rid0 reg0] blocks IH]; intros regs Hnot.
  - done.
  - apply not_elem_of_cons in Hnot as [Hne Hnot]. simpl in Hne.
    unfold store_blocks in *. simpl. rewrite IH by done.
    by apply lookup_insert_ne.
Qed.

Lemma store_blocks_last regs blocks i rid reg :
  blocks !! i = Some (rid, reg) →
  (∀ j reg', (i < j)%nat → blocks !! j ≠ Some (rid, reg')) →
  store_blocks regs blocks !! rid = Some reg.
Proof.
  revert regs i. induction blocks as [|[rid0 reg0] blocks IH];
    intros regs i Hi Hlast; [done|].
  destruct i as [|i]; simpl in Hi.
  - injection Hi as -> ->. unfold store_blocks. simpl.
    fold (store_blocks (<[rid := reg]> regs) blocks).
    rewrite store_blocks_other; [apply lookup_insert_eq|].
    intros ((rid' & reg') & Heq & Hin)%list_elem_of_fmap. simpl in Heq. subst rid'.
    apply list_elem_of_lookup in Hin as [j Hj].
    by apply (Hlast (S j) reg'); [lia|].
  - unfold store_blocks. simpl. apply (IH _ i Hi).
    intros j reg' Hlt. apply (Hlast (S j) reg'). lia.
Qed.

Lemma store_blocks_size_le regs blocks :
  (size (store_blocks regs blocks) ≤ size regs + length blocks)%nat.
Proof.
  revert regs. induction blocks as [|[rid reg] blocks IH]; intros regs.
  - unfold store_blocks. simpl. lia.
  - unfold store_blocks. simpl.
    fold (store_blocks (<[rid := reg]> regs) blocks).
    specialize (IH (<[rid := reg]> regs)).
    rewrite map_size_insert in IH.
    destruct (regs !! rid); unfold id in IH; lia.
Qed.

Lemma store_blocks_size_lt regs blocks :
  (∃ rid, rid ∈ blocks.*1 ∧ is_Some (regs !! rid)) ∨ ¬ NoDup blocks.*1 →
  (size (store_blocks regs blocks) < size regs + length blocks)%nat.
Proof.
  revert regs. induction blocks as [|[rid reg] blocks IH]; intros regs Hdup.
  - destruct Hdup as [(rid & Hin & _)|Hnd].
    + by apply elem_of_nil in Hin.
    + destruct Hnd. constructor.
  - unfold store_blocks. simpl.
    fold (store_blocks (<[rid := reg]> regs) blocks).
    destruct (regs !! rid) as [old|] eqn:Hold.
    + pose proof (store_blocks_size_le (<[rid := reg]> regs) blocks) as Hle.
      rewrite map_size_insert, Hold in Hle. unfold id in Hle. lia.
    + assert ((size (store_blocks (<[rid := reg]> regs) blocks)
               < size (<[rid := reg]> regs) + length blocks)%nat) as Hlt.
      { apply IH. destruct Hdup as [(rid' & Hin & Hsome)|Hnd].
        - left. exists rid'. simpl in Hin.
          apply elem_of_cons in Hin as [->|Hin].
          + rewrite Hold in Hsome. by destruct Hsome.
          + split; [done|]. destruct (decide (rid = rid')) as [->|Hne].
            * rewrite lookup_insert_eq. by eexists.
            * by rewrite lookup_insert_ne.
        - destruct (decide (rid ∈ blocks.*1)) as [Hin|Hnotin].
          + left. exists rid. split; [done|].
            rewrite lookup_insert_eq. by eexists.
          + right. intros Hnd'. apply Hnd. simpl. by constructor. }
      rewrite map_size_insert, Hold in Hlt. lia.
Qed.

(** C10: in a region file in which two or more region blocks carry the
    same region id, [_parse] raises no error for that; the mapping it
    returns has one entry for the id, and the entry is the whole region
    dict (metadata with classification, type and name, notes, detection
    settings, points) of the last block with that id, so the mapping has
    fewer entries than the declared region count. *)
Theorem duplicate_region_id_last_wins b self header count_line ft ffn ev fid
    blocks rest :
  Str.split (Str.strip header) = [ft; ffn; ev] →
  Str.int (Str.strip count_line) = Ok (Z.of_nat (length blocks)) →
  blocks_parse b self fid blocks rest →
  ∃ regs,
    _parse self b (header :: count_line :: fid)
    = Ok (FileMetadata ft ffn ev, regs, rest)
    ∧ (∀ i rid reg,
         blocks !! i = Some (rid, reg) →
         (∀ j reg', (i < j)%nat → blocks !! j ≠ Some (rid, reg')) →
         regs !! rid = Some reg)
    ∧ (∀ i j rid reg reg',
         i ≠ j → blocks !! i = Some (rid, reg) → blocks !! j = Some (rid, reg') →
         (size regs < length blocks)%nat).
Proof.
  intros Hheader Hcount Hblocks.
  exists (store_blocks ∅ blocks). split_and!.
  - unfold _parse.
    erewrite bind_ok by reflexivity. cbv iota. rewrite Hheader.
    erewrite bind_ok by reflexivity. cbv iota.
    erewrite bind_ok by (apply lift_ok, Hcount).
    rewrite Nat2Z.id.
    erewrite bind_ok by (by apply parse_regions_blocks).
    reflexivity.
  - intros i rid reg. apply store_blocks_last.
  - intros i j rid reg reg' Hne Hi Hj.
    pose proof (store_blocks_size_lt ∅ blocks) as Hlt.
    rewrite map_size_empty in Hlt. apply Hlt. right.
    intros Hnd. apply Hne.
    apply (proj1 (NoDup_alt _) Hnd i j rid);
      rewrite list_lookup_fmap; [by rewrite Hi|by rewrite Hj].
Qed.

End RegionBlocks.

(** C6 on a file with one region of two points whose points line ends with
    the type code 1. *)
Lemma region_type_and_points_witness :
  ∃ regs' reg md pts,
    Region2DParser._parse (Region2DParser.Parser (num := Z) None None ∅) true
      ["EVR 4 12.0.341.42620"; "1"; "";
       "13 2 1 0 2 -1 1 20170625 1539223320 9.2447583998 20170625 1539223420 13.5";
       "0"; "0"; "Unclassified";
       "20170625 1539223320 9.2447583998 20170625 1539223420 13.5 1";
       "Region1"]
    = Ok (FileMetadata "EVR" "4" "12.0.341.42620", regs', [])
    ∧ regs' !! "1" = Some reg
    ∧ Region2DParser.metadata reg = Some md
    ∧ md !! "type" = Some "1"
    ∧ Region2DParser.points reg = Some pts
    ∧ length pts = 2%nat.
Proof.
  destruct (region_type_and_points true
              (Region2DParser.Parser (num := Z) None None ∅) ""
              "13 2 1 0 2 -1 1 20170625 1539223320 9.2447583998 20170625 1539223420 13.5"
              "0" [] "0" [] "Unclassified"
              "20170625 1539223320 9.2447583998 20170625 1539223420 13.5 1"
              "Region1" [] _ "1"
              ["20170625"; "1539223320"; "9.2447583998";
               "20170625"; "1539223420"; "13.5"] "1" 2
              eq_refl eq_refl ltac:(simpl; lia) eq_refl eq_refl eq_refl eq_refl)
    as (reg & md & pts & _ & Hfile & Hmd & Htype & Hpts & Hlen & _).
  destruct (Hfile "EVR 4 12.0.341.42620" "1" "EVR" "4" "12.0.341.42620"
              eq_refl eq_refl) as (regs' & Hparse & Hreg).
  exists regs', reg, md, pts. split_and!; assumption.
Defined.

(** C10 on a file that declares two regions, both with the id 1: the
    mapping has one entry, which is the second block. *)
Lemma duplicate_region_id_last_wins_witness :
  ∃ regs reg md,
    Region2DParser._parse (Region2DParser.Parser (num := Z) None None ∅) false
      ["EVR 4 12.0.341.42620"; "2";
       "";
       "13 1 1 0 2 -1 1 20170625 1539223320 9.2 20170625 1539223320 9.2";
       "0"; "0"; "Unclassified"; "20170625 1539223320 9.2 1"; "First";
       "";
       "13 1 1 0 2 -1 1 20170626 1039223320 7.5 20170626 1039223320 7.5";
       "1"; "a note"; "0"; "Krill"; "20170626 1039223320 7.5 4"; "Second"]
    = Ok (FileMetadata "EVR" "4" "12.0.341.42620", regs, [])
    ∧ (size regs < 2)%nat
    ∧ regs !! "1" = Some reg
    ∧ Region2DParser.metadata reg = Some md
    ∧ md !! "name" = Some "Second"
    ∧ md !! "type" = Some "4"
    ∧ md !! "region_classification" = Some "Krill"
    ∧ Region2DParser.notes reg = Some ["a note"]
    ∧ Region2DParser.points reg
      = Some [("D20170626T1039223320", Region2DParser.PyStr "7.5")].
Proof.
  set (self := Region2DParser.Parser (num := Z) None None ∅).
  eassert (blocks_parse false self
    [""; "13 1 1 0 2 -1 1 20170625 1539223320 9.2 20170625 1539223320 9.2";
     "0"; "0"; "Unclassified"; "20170625 1539223320 9.2 1"; "First";
     "";
     "13 1 1 0 2 -1 1 20170626 1039223320 7.5 20170626 1039223320 7.5";
     "1"; "a note"; "0"; "Krill"; "20170626 1039223320 7.5 4"; "Second"]
    _ []) as Hblocks.
  { eapply blocks_cons; [apply read_block_alone; vm_compute; reflexivity|].
    eapply blocks_cons; [apply read_block_alone; vm_compute; reflexivity|].
    apply blocks_nil. }
  eapply (duplicate_region_id_last_wins false self
            "EVR 4 12.0.341.42620" "2" "EVR" "4" "12.0.341.42620")
    in Hblocks as (regs & Hparse & Hlast & Hsize); [|reflexivity..].
  exists regs. eexists _, _. split; [exact Hparse|]. split.
  { eapply (Hsize 0%nat 1%nat "1"); [lia|reflexivity|reflexivity]. }
  split.
  { eapply (Hlast 1%nat "1"); [reflexivity|].
    intros [|[|j]] reg' Hlt; [lia|lia|discriminate]. }
  repeat split.
Defined.

(** ** Mask conversion *)

Section MaskConversion.
Context {L : Type} `{EqDecision L}.
Import Mask.

Implicit Types (R : list (list (option L))) (p q : list (list bool)).

(** *** Cells of planes and rasters *)

Lemma existsb_lookup {A} (f : A → bool) (l : list A) :
  existsb f l = true ↔ ∃ i a, l !! i = Some a ∧ f a = true.
Proof.
  induction l as [|a l IH]; simpl.
  - split; [done|]. by intros (i & a & Hi & _).
  - rewrite orb_true_iff, IH. split.
    + intros [Ha|(i & a' & Hi & Ha')].
      * by exists 0%nat, a.
      * by exists (S i), a'.
    + intros ([|i] & a' & Hi & Ha'); simpl in Hi.
      * left. by simplify_eq.
      * right. by exists i, a'.
Qed.

Lemma plane_at_true p i j :
  plane_at p i j = true ↔ ∃ row, p !! i = Some row ∧ row !! j = Some true.
Proof.
  unfold plane_at. split.
  - destruct (p !! i) as [row|]; simpl; [|done].
    destruct (row !! j) as [[]|] eqn:Hj; simpl; [|done..].
    intros _. by exists row.
  - intros (row & -> & Hj). simpl. by rewrite Hj.
Qed.

Lemma planes_overlap_cell p q :
  planes_overlap p q = true
  ↔ ∃ i j, plane_at p i j = true ∧ plane_at q i j = true.
Proof.
  unfold planes_overlap. rewrite existsb_lookup. split.
  - intros (i & [rp rq] & Hrows & Hcells).
    apply lookup_zip_with_Some in Hrows as (rp' & rq' & Heq & Hp & Hq).
    injection Heq as <- <-. simpl in Hcells.
    apply existsb_lookup in Hcells as (j & [bp bq] & Hcell & Hboth).
    apply lookup_zip_with_Some in Hcell as (bp' & bq' & Heq & Hbp & Hbq).
    injection Heq as <- <-. simpl in Hboth.
    apply andb_true_iff in Hboth as [-> ->].
    exists i, j. split; apply plane_at_true; eauto.
  - intros (i & j & (rp & Hp & Hbp)%plane_at_true & (rq & Hq & Hbq)%plane_at_true).
    exists i, (rp, rq). split.
    + apply lookup_zip_with_Some. by exists rp, rq.
    + simpl. apply existsb_lookup. exists j, (true, true). split; [|done].
      apply lookup_zip_with_Some. by exists true, true.
Qed.

Lemma has_overlap_planes (ps : list (list (list bool))) :
  has_overlap ps = true
  ↔ ∃ k1 k2 p q, (k1 < k2)%nat ∧ ps !! k1 = Some p ∧ ps !! k2 = Some q
      ∧ planes_overlap p q = true.
Proof.
  induction ps as [|p0 ps IH]; simpl.
  - split; [done|]. by intros (k1 & k2 & p & q & _ & Hk1 & _).
  - rewrite orb_true_iff, IH, existsb_lookup. split.
    + intros [(k & q & Hk & Hov)|(k1 & k2 & p & q & Hlt & Hk1 & Hk2 & Hov)].
      * exists 0%nat, (S k), p0, q. split_and!; [lia|done..].
      * exists (S k1), (S k2), p, q. split_and!; [lia|done..].
    + intros (k1 & k2 & p & q & Hlt & Hk1 & Hk2 & Hov).
      destruct k2 as [|k2]; [lia|]. simpl in Hk2.
      destruct k1 as [|k1]; simpl in Hk1.
      * left. simplify_eq. by exists k2, q.
      * right. exists k1, k2, p, q. split_and!; [lia|done..].
Qed.

(** C2: a one-hot mask stack in which some cell is true in two or more
    planes is refused by [convert_mask_3d_to_2d] with [ValueError]; no 2D
    raster is produced. *)
Theorem overlap_rejected (s : one_hot_stack L) (k1 k2 i j : nat) p q :
  k1 ≠ k2 →
  planes s !! k1 = Some p →
  planes s !! k2 = Some q →
  plane_at p i j = true →
  plane_at q i j = true →
  convert_mask_3d_to_2d s = Raise ValueError.
Proof.
  intros Hne Hk1 Hk2 Hp Hq. unfold convert_mask_3d_to_2d.
  assert (has_overlap (planes s) = true) as ->; [|done].
  apply has_overlap_planes.
  destruct (Nat.lt_total k1 k2) as [Hlt|[Heq|Hgt]]; [|done|].
  - exists k1, k2, p, q. split_and!; [done..|].
    apply planes_overlap_cell. eauto.
  - exists k2, k1, q, p. split_and!; [done..|].
    apply planes_overlap_cell. eauto.
Qed.

(** *** Labels of a raster *)

Lemma first_appearance_elem (l : list L) a :
  a ∈ first_appearance l ↔ a ∈ l.
Proof.
  induction l as [|b l IH]; simpl; [done|].
  rewrite !elem_of_cons, list_elem_of_filter, IH.
  destruct (decide (a = b)) as [->|Hne]; [|tauto].
  split; intros _; by left.
Qed.

Lemma first_appearance_NoDup (l : list L) : NoDup (first_appearance l).
Proof.
  induction l as [|b l IH]; simpl; constructor.
  - rewrite list_elem_of_filter. intros [Hne _]. by apply Hne.
  - by apply NoDup_filter.
Qed.

Lemma cell_label_listed R i j a :
  cell R i j = Some (Some a) → a ∈ first_appearance (omap id (concat R)).
Proof.
  intros Hcell. apply first_appearance_elem, list_elem_of_omap.
  exists (Some a). split; [|done].
  unfold cell in Hcell.
  destruct (R !! i) as [row|] eqn:Hrow; simpl in Hcell; [|done].
  apply list_elem_of_lookup_2 in Hcell.
  revert i Hrow. induction R as [|row0 R IH]; intros i Hrow; [done|].
  simpl. apply elem_of_app. destruct i as [|i]; simpl in Hrow.
  - left. by simplify_eq.
  - right. by apply (IH i).
Qed.

Lemma plane_of_at R a i j :
  plane_at (plane_of R a) i j = true ↔ cell R i j = Some (Some a).
Proof.
  rewrite plane_at_true. unfold plane_of, cell. rewrite list_lookup_fmap.
  destruct (R !! i) as [row|]; simpl.
  - split.
    + intros (brow & Heq & Hj). injection Heq as <-.
      rewrite list_lookup_fmap in Hj.
      destruct (row !! j) as [c|]; simpl in Hj; [|done].
      injection Hj as Hc. apply bool_decide_eq_true in Hc. by subst c.
    + intros Hj. eexists. split; [done|].
      rewrite list_lookup_fmap, Hj. simpl. by rewrite bool_decide_eq_true_2.
  - split; [by intros (? & ? & _)|done].
Qed.

Lemma labels_at_planes_of R (ls : list L) i j :
  labels_at (OneHotStack ls (plane_of R <$> ls)) i j
  = filter (λ a, cell R i j = Some (Some a)) ls.
Proof.
  unfold labels_at. simpl. induction ls as [|a ls IH]; [done|].
  cbn [fmap list_fmap zip zip_with]. rewrite !filter_cons. simpl.
  destruct (decide (plane_at (plane_of R a) i j = true)) as [Ht|Hf].
  - rewrite decide_True by by apply plane_of_at.
    simpl. f_equal. apply IH.
  - rewrite decide_False by (by rewrite <- plane_of_at).
    apply IH.
Qed.

Lemma head_filter_label (ls : list L) (c : option L) :
  (∀ a, c = Some a → a ∈ ls) →
  head (filter (λ a, c = Some a) ls) = c.
Proof.
  intros Hin. destruct c as [a0|].
  - specialize (Hin a0 eq_refl).
    induction ls as [|a ls IH]; [by apply elem_of_nil in Hin|].
    rewrite filter_cons. destruct (decide (Some a0 = Some a)) as [Heq|Hne].
    + simpl. by rewrite Heq.
    + apply IH. apply elem_of_cons in Hin as [->|Hin]; [done|done].
  - clear Hin. induction ls as [|a ls IH]; [done|].
    rewrite filter_cons. rewrite decide_False by done. apply IH.
Qed.

Lemma planes_of_no_overlap R (ls : list L) :
  NoDup ls → has_overlap (plane_of R <$> ls) = false.
Proof.
  intros Hnd. apply not_true_is_false.
  intros (k1 & k2 & p & q & Hlt & Hk1 & Hk2 & Hov)%has_overlap_planes.
  rewrite list_lookup_fmap in Hk1, Hk2.
  destruct (ls !! k1) as [a1|] eqn:Ha1; simpl in Hk1; [|done].
  destruct (ls !! k2) as [a2|] eqn:Ha2; simpl in Hk2; [|done].
  injection Hk1 as <-. injection Hk2 as <-.
  apply planes_overlap_cell in Hov as (i & j & H1 & H2).
  apply plane_of_at in H1, H2. rewrite H1 in H2. injection H2 as ->.
  pose proof (proj1 (NoDup_alt ls) Hnd k1 k2 a2 Ha1 Ha2). lia.
Qed.

(** A raster is rebuilt from any plane of its shape when each cell is
    given its own value. *)
Lemma rebuild_raster R (h : option L → bool) (g : nat → nat → option L) :
  (∀ i j c, cell R i j = Some c → g i j = c) →
  imap (λ i (row : list bool), imap (λ j (_ : bool), g i j) row)
       ((λ row : list (option L), h <$> row) <$> R)
  = R.
Proof.
  intros Hg. apply list_eq. intros i.
  rewrite list_lookup_imap, list_lookup_fmap.
  destruct (R !! i) as [row|] eqn:Hrow; simpl; [|done].
  f_equal. apply list_eq. intros j.
  rewrite list_lookup_imap, list_lookup_fmap.
  destruct (row !! j) as [c|] eqn:Hc; simpl; [|done].
  f_equal. apply Hg. unfold cell. rewrite Hrow. simpl. done.
Qed.

(** C1: for every labelled 2D raster, the all-empty raster included,
    converting it to a one-hot stack with [convert_mask_2d_to_3d] and the
    stack back with [convert_mask_3d_to_2d] gives a raster equal to the
    first. *)
Theorem mask_round_trip R :
  convert_mask_3d_to_2d (convert_mask_2d_to_3d R) = Ok R.
Proof.
  unfold convert_mask_2d_to_3d.
  pose proof (first_appearance_NoDup (omap id (concat R))) as Hnd.
  pose proof (cell_label_listed R) as Hlisted.
  destruct (first_appearance (omap id (concat R))) as [|a0 ls] eqn:Hls.
  - unfold convert_mask_3d_to_2d. simpl. f_equal.
    apply rebuild_raster. intros i j c Hc.
    destruct c as [a|]; [|done].
    by apply Hlisted, elem_of_nil in Hc.
  - unfold convert_mask_3d_to_2d. cbn [planes].
    rewrite planes_of_no_overlap by done.
    change (default [] (head (plane_of R <$> a0 :: ls))) with (plane_of R a0).
    f_equal.
    apply (rebuild_raster R (λ c, bool_decide (c = Some a0))).
    intros i j c Hc. rewrite labels_at_planes_of, Hc.
    rewrite (list_filter_iff _ (λ a, c = Some a))
      by (intros a; split; congruence).
    apply head_filter_label. intros a ->. by apply Hlisted in Hc.
Qed.

End MaskConversion.

(** C2 on a stack of the three labels 5, 8 and 11 whose first plane was
    set to all ones, so that it overlaps the second plane at cell (0, 1). *)
Lemma overlap_rejected_witness :
  Mask.convert_mask_3d_to_2d
    (Mask.OneHotStack [5; 8; 11]
       [[[true; true]; [true; true]];
        [[false; true]; [false; false]];
        [[false; false]; [false; true]]])
  = Raise ValueError.
Proof.
  apply (overlap_rejected
           (Mask.OneHotStack [5; 8; 11]
              [[[true; true]; [true; true]];
               [[false; true]; [false; false]];
               [[false; false]; [false; true]]])
           0 1 0 1 [[true; true]; [true; true]] [[false; true]; [false; false]]);
    [lia|reflexivity..].
Defined.

(** ** Points of one region from a CSV file, a JSON file or the parsed data *)

Section RegionPoints.
Context {num : Type}.
Import Region2DParser.

Implicit Types (self : parser (num := num))
  (fs : gmap string (file_content (num := num))).

Lemma get_points_csv_missing self fs region file convert_time :
  Str.endswith (Str.upper file) ".CSV" = true →
  fs !! file = None →
  get_points_from_region self fs region file convert_time = Raise ValueError.
Proof. intros Hcsv Hfile. unfold get_points_from_region. by rewrite Hcsv, Hfile. Qed.

Lemma get_points_json_missing self fs region file convert_time :
  Str.endswith (Str.upper file) ".CSV" = false →
  Str.endswith (Str.upper file) ".JSON" = true →
  fs !! file = None →
  get_points_from_region self fs region file convert_time = Raise ValueError.
Proof.
  intros Hcsv Hjson Hfile. unfold get_points_from_region.
  by rewrite Hcsv, Hjson, Hfile.
Qed.

Lemma filter_region_absent (data : list (csv_row (num := num))) region :
  (∀ r, r ∈ data → region_id r ≠ region) →
  filter (λ r, region_id r = region) data = [].
Proof.
  intros Habsent. induction data as [|r data IH]; [done|].
  rewrite filter_cons, decide_False.
  - apply IH. intros r' Hin. apply Habsent. by right.
  - apply Habsent. by left.
Qed.

Lemma get_points_csv_absent self fs region file convert_time data :
  Str.endswith (Str.upper file) ".CSV" = true →
  fs !! file = Some (CsvFile data) →
  (∀ r, r ∈ data → region_id r ≠ region) →
  get_points_from_region self fs region file convert_time = Ok [].
Proof.
  intros Hcsv Hfile Habsent. unfold get_points_from_region.
  rewrite Hcsv, Hfile. by rewrite filter_region_absent.
Qed.

Lemma get_points_json_absent self fs region file convert_time data :
  Str.endswith (Str.upper file) ".CSV" = false →
  Str.endswith (Str.upper file) ".JSON" = true →
  fs !! file = Some (JsonFile data) →
  regions data !! pretty region = None →
  get_points_from_region self fs region file convert_time = Raise KeyError.
Proof.
  intros Hcsv Hjson Hfile Habsent. unfold get_points_from_region.
  rewrite Hcsv, Hjson, Hfile. simpl. by rewrite Habsent.
Qed.

Lemma get_points_parsed_absent self fs region file convert_time data :
  Str.endswith (Str.upper file) ".CSV" = false →
  Str.endswith (Str.upper file) ".JSON" = false →
  output_data self !! file = Some data →
  regions data !! pretty region = None →
  get_points_from_region self fs region file convert_time = Raise KeyError.
Proof.
  intros Hcsv Hjson Hfile Habsent. unfold get_points_from_region.
  rewrite Hcsv, Hjson, Hfile. simpl. by rewrite Habsent.
Qed.

(** C8, as the code has it: [get_points_from_region] raises [ValueError]
    when the named CSV or JSON file does not exist.  For a region id that
    the source does not hold it raises no [ValueError]: from an existing
    CSV file it returns the empty list, and from a JSON file or the parsed
    data it raises [KeyError]. *)
Theorem get_points_missing_source self fs region file convert_time :
  (Str.endswith (Str.upper file) ".CSV" = true
   ∨ Str.endswith (Str.upper file) ".JSON" = true →
   fs !! file = None →
   get_points_from_region self fs region file convert_time = Raise ValueError)
  ∧ (∀ data,
      Str.endswith (Str.upper file) ".CSV" = true →
      fs !! file = Some (CsvFile data) →
      (∀ r, r ∈ data → region_id r ≠ region) →
      get_points_from_region self fs region file convert_time = Ok [])
  ∧ (∀ data,
      Str.endswith (Str.upper file) ".CSV" = false →
      (Str.endswith (Str.upper file) ".JSON" = true
       ∧ fs !! file = Some (JsonFile data))
      ∨ (Str.endswith (Str.upper file) ".JSON" = false
         ∧ output_data self !! file = Some data) →
      regions data !! pretty region = None →
      get_points_from_region self fs region file convert_time = Raise KeyError).
Proof.
  split_and!.
  - intros Hext Hfile.
    destruct (Str.endswith (Str.upper file) ".CSV") eqn:Hcsv.
    + by apply get_points_csv_missing.
    + destruct Hext as [?|Hjson]; [done|]. by apply get_points_json_missing.
  - intros data. apply get_points_csv_absent.
  - intros data Hcsv [[Hjson Hfile]|[Hjson Hfile]] Habsent.
    + by eapply get_points_json_absent.
    + by eapply get_points_parsed_absent.
Qed.

End RegionPoints.

(** C8 as stated fails: the region id 2 is absent from the existing file
    x1.csv, and the call returns the empty list instead of raising
    [ValueError]. *)
Lemma absent_region_in_csv_returns_empty :
  is_Some (x1_files !! "x1.csv")
  ∧ Region2DParser.get_points_from_region x1_parser x1_files 2 "x1.csv" false
    = Ok []
  ∧ Region2DParser.get_points_from_region x1_parser x1_files 2 "x1.csv" false
    ≠ Raise ValueError.
Proof. split_and!; [by eexists|reflexivity|discriminate]. Qed.

(** C8, amended, on the files of x1: a CSV file that does not exist, the
    region 2 absent from x1.csv, from x1.json and from the parsed x1. *)
Lemma get_points_missing_source_witness :
  Region2DParser.get_points_from_region x1_parser x1_files 1 "none.csv" false
  = Raise ValueError
  ∧ Region2DParser.get_points_from_region x1_parser x1_files 2 "x1.csv" false
    = Ok []
  ∧ Region2DParser.get_points_from_region x1_parser x1_files 2 "x1.json" false
    = Raise KeyError
  ∧ Region2DParser.get_points_from_region x1_parser x1_files 2 "x1" false
    = Raise KeyError.
Proof.
  split_and!.
  - apply (proj1 (get_points_missing_source x1_parser x1_files 1 "none.csv" false));
      [by left|reflexivity].
  - eapply (proj1 (proj2
      (get_points_missing_source x1_parser x1_files 2 "x1.csv" false)));
      [reflexivity|reflexivity|].
    intros r Hin. apply list_elem_of_singleton in Hin as ->. simpl. lia.
  - eapply (proj2 (proj2
      (get_points_missing_source x1_parser x1_files 2 "x1.json" false)));
      [reflexivity|left; split; reflexivity|reflexivity].
  - eapply (proj2 (proj2
      (get_points_missing_source x1_parser x1_files 2 "x1" false)));
      [reflexivity|right; split; reflexivity|reflexivity].
Defined.

(** C7 at the region 1 of x1, whose point has the same two values in the
    CSV file, in the JSON file and in the parsed data: the CSV branch
    returns the point as a tuple, the JSON and parsed branch as a list, so
    the outputs are not equal; and with [convert_time] the CSV branch
    leaves the timestamp a string where the other branch decodes it. *)
Theorem points_differ_between_sources :
  Region2DParser.get_points_from_region x1_parser x1_files 1 "x1.csv" false
  = Ok [Region2DParser.PyTuple
          [Region2DParser.PyStr "D20170625T1539223320"; Region2DParser.PyFloat 250]]
  ∧ Region2DParser.get_points_from_region x1_parser x1_files 1 "x1.json" false
    = Ok [Region2DParser.PyList
            [Region2DParser.PyStr "D20170625T1539223320"; Region2DParser.PyFloat 250]]
  ∧ Region2DParser.get_points_from_region x1_parser x1_files 1 "x1" false
    = Ok [Region2DParser.PyList
            [Region2DParser.PyStr "D20170625T1539223320"; Region2DParser.PyFloat 250]]
  ∧ Region2DParser.get_points_from_region x1_parser x1_files 1 "x1.csv" false
    ≠ Region2DParser.get_points_from_region x1_parser x1_files 1 "x1" false
  ∧ Region2DParser.get_points_from_region x1_parser x1_files 1 "x1.csv" true
    = Ok [Region2DParser.PyTuple
            [Region2DParser.PyStr "D20170625T1539223320"; Region2DParser.PyFloat 250]]
  ∧ Region2DParser.get_points_from_region x1_parser x1_files 1 "x1" true
    = Ok [Region2DParser.PyList
            [Region2DParser.PyTime (TimeCodec.Instant 2017 6 25 15 39 22 3320);
             Region2DParser.PyFloat 250]].
Proof. split_and!; [reflexivity..|discriminate|reflexivity|reflexivity]. Qed.

(** * Further properties of the parsers *)

(** ** Line files: malformed records, counts, and [JSON_to_dict] *)

Section LineFiles.
Context {V : Type}.
Import LineParser.

Lemma read_points_bad_record (replace : option V) (good : list string) :
  ∀ n bad rest,
    Forall (λ line, length (Str.split (Str.strip line)) = 4%nat) good →
    length (Str.split (Str.strip bad)) ≠ 4%nat →
    (length good < n)%nat →
    read_points replace n (good ++ bad :: rest)%list = Raise ValueError.
Proof.
  induction good as [|line good IH]; intros n bad rest Hgood Hbad Hn.
  - destruct n as [|n]; [simpl in Hn; lia|].
    cbn [app read_points]. unfold bind at 1. simpl.
    destruct (Str.split (Str.strip bad)) as [|a [|b [|c [|d [|e toks]]]]];
      simpl in Hbad; done.
  - destruct n as [|n]; [simpl in Hn; lia|].
    apply Forall_cons in Hgood as [Hline Hgood].
    cbn [app read_points]. unfold bind at 1. simpl.
    destruct (Str.split (Str.strip line)) as [|a [|b [|c [|d [|e toks]]]]];
      simpl in Hline; try done.
    unfold bind. rewrite IH; [done..|]. simpl in Hn. lia.
Qed.

(** X1: a line file in which one of the declared point records does not
    have exactly four tokens raises [ValueError], whatever the records
    before it hold; no partial collection of points is returned. *)
Theorem line_bad_record_rejected (replace : option V) header count_line
    ft ffn ev n good bad rest :
  Str.split (Str.strip header) = [ft; ffn; ev] →
  Str.int (Str.strip count_line) = Ok n →
  Forall (λ line, length (Str.split (Str.strip line)) = 4%nat) good →
  length (Str.split (Str.strip bad)) ≠ 4%nat →
  (Z.of_nat (length good) < n) →
  _parse replace (header :: count_line :: (good ++ bad :: rest)%list)
  = Raise ValueError.
Proof.
  intros Hheader Hcount Hgood Hbad Hn. unfold _parse.
  erewrite bind_ok by reflexivity. cbv iota. rewrite Hheader.
  erewrite bind_ok by reflexivity. cbv iota.
  erewrite bind_ok by (apply lift_ok, Hcount).
  unfold bind. rewrite (read_points_bad_record replace good); [done..|lia].
Qed.

Lemma read_points_replace_later (v : V) (n : nat) :
  ∀ fid pts rest,
    read_points None n fid = Ok (pts, rest) →
    ∃ pts_v,
      read_points (Some v) n fid = Ok (pts_v, rest)
      ∧ convert_points false (Some v) pts = Ok (json_point_of <$> pts_v).
Proof.
  induction n as [|n IH]; intros fid pts rest Hread.
  - injection Hread as <- <-. by exists [].
  - cbn [read_points] in Hread |- *. unfold bind at 1 in Hread.
    unfold bind at 1.
    destruct (EvParserBase.read_line true fid) as [[toks fid1]|]; [|done].
    destruct toks as [|a [|b [|c [|d [|e toks]]]]]; try done.
    unfold bind in Hread |- *.
    destruct (read_points None n fid1) as [[ps fid2]|] eqn:Hps; [|done].
    destruct (IH fid1 ps fid2 Hps) as (ps_v & -> & Hconv).
    injection Hread as <- <-. eexists. split; [reflexivity|].
    cbn [convert_points x y status rbind]. rewrite Hconv.
    by destruct (String.eqb c "-10000.990000").
Qed.

(** X4: replacing the depth sentinel afterwards gives what replacing it
    while parsing gives: when a line file parses without a replacement
    value, it parses with the value [v] too, and [JSON_to_dict] with
    [convert_time] off and the value [v], run on the points of the first
    parse, returns the points of the second. *)
Theorem json_to_dict_replaces_like_parse (v : V) fid md pts rest :
  _parse None fid = Ok (md, pts, rest) →
  ∃ pts_v,
    _parse (Some v) fid = Ok (md, pts_v, rest)
    ∧ JSON_to_dict (LineData (Some md) (Some pts)) false (Some v)
      = Ok (LineData (Some md) (Some (json_point_of <$> pts_v))).
Proof.
  unfold _parse. intros Hparse.
  unfold bind at 1 in Hparse. unfold bind at 1.
  destruct (EvParserBase.read_line true fid) as [[header fid1]|]; [|done].
  destruct header as [|ft [|ffn [|ev [|extra header]]]]; try done.
  unfold bind at 1 in Hparse. unfold bind at 1.
  destruct (EvParserBase.read_line false fid1) as [[cl fid2]|]; [|done].
  unfold bind at 1 in Hparse. unfold bind at 1.
  destruct (lift (Str.int cl) fid2) as [[n fid3]|]; [|done].
  unfold bind in Hparse |- *.
  destruct (read_points None (Z.to_nat n) fid3) as [[ps fid4]|] eqn:Hps; [|done].
  injection Hparse as <- <- <-.
  destruct (read_points_replace_later v _ _ _ _ Hps) as (pts_v & -> & Hconv).
  exists pts_v. split; [done|].
  unfold JSON_to_dict. simpl. by rewrite Hconv.
Qed.

End LineFiles.

(** X1 on a file that declares two points and whose second record lacks
    its status token. *)
Lemma line_bad_record_rejected_witness :
  LineParser._parse (Some 0)
    ["EVL 7 1.0.0"; "2"; "20170625 1539223320 9.2447583998 3";
     "20170625 1539223420 9.3"]
  = Raise ValueError.
Proof.
  apply (line_bad_record_rejected (Some 0) "EVL 7 1.0.0" "2" "EVL" "7" "1.0.0"
           2 ["20170625 1539223320 9.2447583998 3"]
           "20170625 1539223420 9.3" []); try reflexivity.
  - by repeat constructor.
  - simpl. lia.
Defined.

(** X4 on the file of one point whose depth is the sentinel. *)
Lemma json_to_dict_replaces_like_parse_witness :
  ∃ pts_v,
    LineParser._parse (Some 0)
      ["EVL 7 1.0.0"; "1"; "20170625 1539223320 -10000.990000 1"]
    = Ok (FileMetadata "EVL" "7" "1.0.0", pts_v, [])
    ∧ LineParser.JSON_to_dict
        (LineParser.LineData (Some (FileMetadata "EVL" "7" "1.0.0"))
           (Some [LineParser.Point "D20170625T1539223320"
                    (LineParser.DepthTok "-10000.990000") "1"]))
        false (Some 0)
      = Ok (LineParser.LineData (Some (FileMetadata "EVL" "7" "1.0.0"))
              (Some (LineParser.json_point_of <$> pts_v))).
Proof.
  apply (json_to_dict_replaces_like_parse 0
           ["EVL 7 1.0.0"; "1"; "20170625 1539223320 -10000.990000 1"]).
  reflexivity.
Defined.

(** ** What [JSON_to_dict] changes *)

Section JsonPoints.
Context {V : Type}.
Import LineParser.



End JsonPoints.


(** ** Region files: tokens, counts and bounds *)

Section RegionTokens.
Context {num : Type}.
Import Region2DParser.

Implicit Types (self : parser (num := num)) (regs : gmap string (region (num := num))).

Local Open Scope nat_scope.

Lemma points_to_dict_leftover b self k :
  ∀ line : list string,
    length line = 3 * k + 1 ∨ length line = 3 * k + 2 →
    _points_to_dict b self line = Raise IndexError.
Proof.
  induction k as [|k IH]; intros line Hlen.
  - destruct line as [|d [|t [|y0 line']]]; simpl in Hlen; try done; lia.
  - destruct line as [|d [|t [|y0 line']]]; simpl in Hlen; try lia.
    simpl. rewrite IH; [done|lia].
Qed.

(** X5: [_points_to_dict] returns points exactly for a line whose number
    of tokens is a multiple of three, one point for each three tokens;
    for every other line it raises [IndexError]. *)
Theorem points_line_multiple_of_three b self (line : list string) :
  (length line `mod` 3 = 0 →
   ∃ pts, _points_to_dict b self line = Ok pts
     ∧ length pts = length line `div` 3)
  ∧ (length line `mod` 3 ≠ 0 →
     _points_to_dict b self line = Raise IndexError).
Proof.
  pose proof (Nat.div_mod_eq (length line) 3) as Hdm.
  pose proof (Nat.mod_upper_bound (length line) 3 ltac:(lia)) as Hlt.
  split.
  - intros Hmod.
    destruct (points_to_dict_groups b self (length line `div` 3) line
                ltac:(lia)) as (pts & Hpts & Hk & _).
    by exists pts.
  - intros Hmod. apply (points_to_dict_leftover b self (length line `div` 3)).
    lia.
Qed.

(** X6: [_region_metadata_to_dict] raises [IndexError] for a line of fewer
    than 13 tokens, and for every line it reads the first 13 tokens only:
    tokens beyond them do not change the result. *)
Theorem region_metadata_needs_13_tokens (line : list string) :
  (length line < 13 → _region_metadata_to_dict line = Raise IndexError)
  ∧ _region_metadata_to_dict line = _region_metadata_to_dict (take 13 line).
Proof.
  split.
  - intros Hlen.
    do 13 (destruct line as [|? line]; [reflexivity|]).
    simpl in Hlen. lia.
  - do 13 (destruct line as [|? line]; [reflexivity|]).
    reflexivity.
Qed.

(** *** The bounds and the result of [_parse] *)

Lemma points_to_dict_ext b self b' (self' : parser (num := num)) :
  (∀ y, range_edge b self y = range_edge b' self' y) →
  ∀ k (line : list string), length line ≤ k →
    _points_to_dict b self line = _points_to_dict b' self' line.
Proof.
  intros Hedge. induction k as [|k IH]; intros line Hlen.
  - by destruct line; [|simpl in Hlen; lia].
  - destruct line as [|d [|t [|y0 line']]]; try done.
    simpl in Hlen. simpl. rewrite Hedge, (IH line') by lia. done.
Qed.

Lemma read_block_ext b self b' (self' : parser (num := num)) fid :
  (∀ y, range_edge b self y = range_edge b' self' y) →
  read_block b self fid = read_block b' self' fid.
Proof.
  intros Hedge. unfold read_block, bind, lift, ret.
  destruct (EvParserBase.readline fid) as [[blank fid1]|]; [|done].
  destruct (EvParserBase.read_line true fid1) as [[toks fid2]|]; [|done].
  destruct (item toks 2) as [rid|]; [|done].
  destruct (_region_metadata_to_dict toks) as [md|]; [|done].
  destruct (EvParserBase.read_line false fid2) as [[nc fid3]|]; [|done].
  destruct (Str.int nc) as [nn|]; [|done].
  destruct (read_lines (Z.to_nat nn) fid3) as [[ns fid4]|]; [|done].
  destruct (EvParserBase.read_line false fid4) as [[dc fid5]|]; [|done].
  destruct (Str.int dc) as [dn|]; [|done].
  destruct (read_lines (Z.to_nat dn) fid5) as [[ds fid6]|]; [|done].
  destruct (EvParserBase.read_line false fid6) as [[cls fid7]|]; [|done].
  destruct (EvParserBase.read_line true fid7) as [[pl fid8]|]; [|done].
  destruct (pop pl) as [[ty pl']|]; [|done]. simpl.
  by rewrite (points_to_dict_ext b self b' self' Hedge (length pl') pl').
Qed.

Lemma parse_regions_ext b self b' (self' : parser (num := num)) n :
  (∀ y, range_edge b self y = range_edge b' self' y) →
  ∀ regs fid,
    parse_regions b self n regs fid = parse_regions b' self' n regs fid.
Proof.
  intros Hedge. induction n as [|n IH]; intros regs fid; [done|].
  cbn [parse_regions]. unfold bind.
  rewrite !parse_region_read_block, (read_block_ext b self b' self' fid Hedge).
  destruct (read_block b' self' fid) as [[[rid reg] fid']|]; [|done].
  apply IH.
Qed.

Lemma parse_ext b self b' (self' : parser (num := num)) fid :
  (∀ y, range_edge b self y = range_edge b' self' y) →
  _parse self b fid = _parse self' b' fid.
Proof.
  intros Hedge. unfold _parse, bind.
  destruct (EvParserBase.read_line true fid) as [[header fid1]|]; [|done].
  destruct header as [|ft [|ffn [|ev [|extra header]]]]; try done.
  destruct (EvParserBase.read_line false fid1) as [[cl fid2]|]; [|done].
  destruct (lift (Str.int cl) fid2) as [[n fid3]|]; [|done].
  by rewrite (parse_regions_ext b self b' self' _ Hedge).
Qed.

(** X7: without [convert_range_edges] the depth bounds of the parser have
    no effect on what [_parse] returns. *)
Theorem parse_ignores_bounds_without_conversion self
    (self' : parser (num := num)) (fid : list string) :
  _parse self false fid = _parse self' false fid.
Proof.
  apply parse_ext. intros y. reflexivity.
Qed.

(** X8: with [convert_range_edges] but neither depth bound set, [_parse]
    returns what it returns without [convert_range_edges]: every depth
    stays the string of the file. *)
Theorem parse_conversion_without_bounds self (fid : list string) :
  min_depth self = None →
  max_depth self = None →
  _parse self true fid = _parse self false fid.
Proof.
  intros Hmin Hmax. apply parse_ext. intros y.
  unfold range_edge. rewrite Hmin, Hmax.
  by destruct (String.eqb y "9999.9900000000"),
    (String.eqb y "-9999.9900000000").
Qed.

End RegionTokens.

(** X8 on a file of one region whose two points lie on the range edges. *)
Lemma parse_conversion_without_bounds_witness :
  Region2DParser._parse (Region2DParser.Parser (num := Z) None None ∅) true
    ["EVR 4 12.0.341.42620"; "1"; "";
     "13 2 1 0 2 -1 1 20170625 1539223320 -9999.99 20170625 1539223420 9999.99";
     "0"; "0"; "Unclassified";
     "20170625 1539223320 -9999.9900000000 20170625 1539223420 9999.9900000000 1";
     "Region1"]
  = Region2DParser._parse (Region2DParser.Parser (num := Z) None None ∅) false
      ["EVR 4 12.0.341.42620"; "1"; "";
       "13 2 1 0 2 -1 1 20170625 1539223320 -9999.99 20170625 1539223420 9999.99";
       "0"; "0"; "Unclassified";
       "20170625 1539223320 -9999.9900000000 20170625 1539223420 9999.9900000000 1";
       "Region1"].
Proof.
  apply (parse_conversion_without_bounds
           (Region2DParser.Parser (num := Z) None None ∅)); reflexivity.
Defined.

(** X5 on a line of two points and on a line with a token missing. *)
Lemma points_line_multiple_of_three_witness :
  (∃ pts,
     Region2DParser._points_to_dict false
       (Region2DParser.Parser (num := Z) None None ∅)
       ["20170625"; "1539223320"; "9.2"; "20170625"; "1539223420"; "9.5"]
     = Ok pts ∧ length pts = 2%nat)
  ∧ Region2DParser._points_to_dict false
      (Region2DParser.Parser (num := Z) None None ∅)
      ["20170625"; "1539223320"; "9.2"; "20170625"; "1539223420"]
    = Raise IndexError.
Proof.
  split.
  - apply (proj1 (points_line_multiple_of_three false
      (Region2DParser.Parser (num := Z) None None ∅)
      ["20170625"; "1539223320"; "9.2"; "20170625"; "1539223420"; "9.5"])).
    reflexivity.
  - apply (proj2 (points_line_multiple_of_three false
      (Region2DParser.Parser (num := Z) None None ∅)
      ["20170625"; "1539223320"; "9.2"; "20170625"; "1539223420"])).
    simpl. lia.
Defined.

(** X6 on a region header that stops after its bounding rectangle's left
    edge. *)
Lemma region_metadata_needs_13_tokens_witness :
  Region2DParser._region_metadata_to_dict
    ["13"; "2"; "1"; "0"; "2"; "-1"; "1"; "20170625"; "1539223320"; "9.2"]
  = Raise IndexError.
Proof.
  apply (proj1 (region_metadata_needs_13_tokens
    ["13"; "2"; "1"; "0"; "2"; "-1"; "1"; "20170625"; "1539223320"; "9.2"])).
  simpl. lia.
Defined.

(** ** Declared counts *)

(** X2: a count line that holds zero or a negative number is accepted by
    both parsers: they return the file metadata with no point and no
    region, raise nothing, and leave the lines after the count unread. *)
Theorem nonpositive_count_reads_nothing {V num : Type} (replace : option V)
    (self : Region2DParser.parser (num := num)) (b : bool)
    header count_line ft ffn ev n (rest : list string) :
  Str.split (Str.strip header) = [ft; ffn; ev] →
  Str.int (Str.strip count_line) = Ok n →
  n ≤ 0 →
  LineParser._parse replace (header :: count_line :: rest)
  = Ok (FileMetadata ft ffn ev, [], rest)
  ∧ Region2DParser._parse self b (header :: count_line :: rest)
    = Ok (FileMetadata ft ffn ev, ∅, rest).
Proof.
  intros Hheader Hcount Hn.
  assert (Z.to_nat n = 0%nat) as Hzero by lia.
  split.
  - unfold LineParser._parse.
    erewrite bind_ok by reflexivity. cbv iota. rewrite Hheader.
    erewrite bind_ok by reflexivity. cbv iota.
    erewrite bind_ok by (apply lift_ok, Hcount).
    by rewrite Hzero.
  - unfold Region2DParser._parse.
    erewrite bind_ok by reflexivity. cbv iota. rewrite Hheader.
    erewrite bind_ok by reflexivity. cbv iota.
    erewrite bind_ok by (apply lift_ok, Hcount).
    by rewrite Hzero.
Qed.

(** X2 on a line file and a region file whose count line is -3. *)
Lemma nonpositive_count_reads_nothing_witness :
  LineParser._parse (Some 0)
    ["EVL 7 1.0.0"; "-3"; "20170625 1539223320 9.2 3"]
  = Ok (FileMetadata "EVL" "7" "1.0.0", [], ["20170625 1539223320 9.2 3"])
  ∧ Region2DParser._parse (Region2DParser.Parser (num := Z) None None ∅) true
      ["EVL 7 1.0.0"; "-3"; "20170625 1539223320 9.2 3"]
    = Ok (FileMetadata "EVL" "7" "1.0.0", ∅, ["20170625 1539223320 9.2 3"]).
Proof.
  apply (nonpositive_count_reads_nothing (Some 0)
           (Region2DParser.Parser (num := Z) None None ∅) true
           "EVL 7 1.0.0" "-3" "EVL" "7" "1.0.0" (-3)); [reflexivity..|lia].
Defined.

(** ** The depth bounds stay ordered *)

Section BoundsOrdered.
Context {num : Type} (num_le num_ge : num → num → bool).
Import Region2DParser.

(** Python's [a >= b] is [b <= a]. *)
Hypothesis num_ge_le : ∀ a b, num_ge a b = num_le b a.

Lemma call_setter_ordered (c : setter_call) (self : parser (num := num)) :
  bounds_ordered num_le self →
  bounds_ordered num_le (call_setter num_le num_ge c self).2.
Proof.
  intros Hord. destruct c as [val|val]; simpl.
  - unfold set_max_depth.
    destruct (_min_depth self) as [lo|] eqn:Hlo.
    + destruct (num_le val lo) eqn:Hle; [done|].
      intros lo' hi' Hlo' Hhi'. simpl in *. by simplify_eq.
    + intros lo' hi' Hlo' Hhi'. simpl in *. congruence.
  - unfold set_min_depth.
    destruct (_max_depth self) as [hi|] eqn:Hhi.
    + destruct (num_ge val hi) eqn:Hge; [done|].
      intros lo' hi' Hlo' Hhi'. simpl in *. simplify_eq.
      by rewrite <- num_ge_le.
    + intros lo' hi' Hlo' Hhi'. simpl in *. congruence.
Qed.

(** X9: the setters keep the bounds ordered.  From a parser whose bounds
    are ordered (one with no bound set, for one), any sequence of
    assignments to [max_depth] and [min_depth], refused ones included,
    leaves a parser in which [max_depth <= min_depth] is false whenever
    both are set. *)
Theorem setters_keep_bounds_ordered (cs : list setter_call)
    (self : parser (num := num)) :
  bounds_ordered num_le self →
  bounds_ordered num_le (call_setters num_le num_ge cs self).
Proof.
  revert self. induction cs as [|c cs IH]; intros self Hord; [done|].
  unfold call_setters. simpl. apply IH. by apply call_setter_ordered.
Qed.

End BoundsOrdered.

(** X9 on a new parser: max 10, min 20 (refused), min 5, max 3 (refused),
    max 8 leave min 5 and max 8. *)
Lemma setters_keep_bounds_ordered_witness :
  let self := call_setters Z.leb Z.geb
                [SetMaxDepth 10; SetMinDepth 20; SetMinDepth 5;
                 SetMaxDepth 3; SetMaxDepth 8]
                (Region2DParser.Parser None None ∅) in
  bounds_ordered Z.leb self
  ∧ self = Region2DParser.Parser (Some 5) (Some 8) ∅.
Proof.
  split.
  - apply (setters_keep_bounds_ordered Z.leb Z.geb).
    + intros a b0. unfold Z.geb, Z.leb. rewrite (Z.compare_antisym a b0).
      by destruct (a ?= b0).
    + intros lo hi Hlo. discriminate Hlo.
  - reflexivity.
Defined.

(** ** The regions of a parsed file *)

Section ParsedRegions.
Context {num : Type}.
Import Region2DParser.

Implicit Types (self : parser (num := num)) (regs : gmap string (region (num := num))).

Lemma region_metadata_to_dict_dom (line : list string) md :
  _region_metadata_to_dict line = Ok md →
  dom md = list_to_set region_header_keys.
Proof.
  unfold _region_metadata_to_dict. intros Hmd.
  repeat match type of Hmd with
         | rbind (item ?l ?i) _ = _ =>
             destruct (item l i); cbn [rbind] in Hmd; [|done]
         end.
  injection Hmd as <-. rewrite !dom_insert_L, dom_empty_L. reflexivity.
Qed.

Lemma read_block_complete b self fid rid reg fid' :
  read_block b self fid = Ok (rid, reg, fid') → region_complete reg.
Proof.
  unfold read_block, bind, lift, ret.
  destruct (EvParserBase.readline fid) as [[blank fid1]|]; [|done].
  destruct (EvParserBase.read_line true fid1) as [[toks fid2]|]; [|done].
  destruct (item toks 2) as [rid'|]; [|done].
  destruct (_region_metadata_to_dict toks) as [md|] eqn:Hmd; [|done].
  destruct (EvParserBase.read_line false fid2) as [[nc fid3]|]; [|done].
  destruct (Str.int nc) as [nn|]; [|done].
  destruct (read_lines (Z.to_nat nn) fid3) as [[ns fid4]|]; [|done].
  destruct (EvParserBase.read_line false fid4) as [[dc fid5]|]; [|done].
  destruct (Str.int dc) as [dn|]; [|done].
  destruct (read_lines (Z.to_nat dn) fid5) as [[ds fid6]|]; [|done].
  destruct (EvParserBase.read_line false fid6) as [[cls fid7]|]; [|done].
  destruct (EvParserBase.read_line true fid7) as [[pl fid8]|]; [|done].
  destruct (pop pl) as [[ty pl']|]; [|done]. simpl.
  destruct (_points_to_dict b self pl') as [pts|]; [|done].
  destruct (EvParserBase.read_line false fid8) as [[name fid9]|]; [|done].
  intros Hblock. injection Hblock as <- <- <-.
  eexists. split; [reflexivity|]. split; [|by eauto].
  rewrite !dom_insert_L, (region_metadata_to_dict_dom _ _ Hmd).
  unfold region_metadata_keys. rewrite list_to_set_app_L.
  generalize (list_to_set (C := gset string) region_header_keys).
  intros header_keys. apply set_eq. intros key.
  rewrite !elem_of_union, elem_of_list_to_set, !elem_of_cons, elem_of_nil,
    !elem_of_singleton. tauto.
Qed.

Lemma parse_region_block b self regs fid regs' fid' :
  parse_region b self regs fid = Ok (regs', fid') →
  ∃ rid reg, read_block b self fid = Ok (rid, reg, fid')
    ∧ regs' = <[rid := reg]> regs.
Proof.
  rewrite parse_region_read_block.
  destruct (read_block b self fid) as [[[rid reg] fid'']|]; [|done].
  intros Hok. exists rid, reg. split; congruence.
Qed.

Lemma parse_regions_complete b self n :
  ∀ regs fid regs' fid',
    parse_regions b self n regs fid = Ok (regs', fid') →
    map_Forall (λ _ reg, region_complete reg) regs →
    map_Forall (λ _ reg, region_complete reg) regs'.
Proof.
  induction n as [|n IH]; intros regs fid regs' fid' Hparse Hall.
  - by injection Hparse as <- <-.
  - cbn [parse_regions] in Hparse. unfold bind in Hparse.
    destruct (parse_region b self regs fid) as [[regs1 fid1]|] eqn:Hblock;
      [|done].
    apply parse_region_block in Hblock as (rid & reg & Hread & ->).
    apply (IH _ _ _ _ Hparse). apply map_Forall_insert_2; [|done].
    by eapply read_block_complete.
Qed.

Lemma parse_result_complete b self fid md regs rest :
  _parse self b fid = Ok (md, regs, rest) →
  map_Forall (λ _ reg, region_complete reg) regs.
Proof.
  unfold _parse, bind.
  destruct (EvParserBase.read_line true fid) as [[header fid1]|]; [|done].
  destruct header as [|ft [|ffn [|ev [|extra header]]]]; try done.
  destruct (EvParserBase.read_line false fid1) as [[cl fid2]|]; [|done].
  destruct (lift (Str.int cl) fid2) as [[n fid3]|]; [|done].
  destruct (parse_regions b self (Z.to_nat n) ∅ fid3)
    as [[regs' fid4]|] eqn:Hregs; [|done].
  intros Hok. injection Hok as <- <- <-.
  apply (parse_regions_complete _ _ _ _ _ _ _ Hregs), map_Forall_empty.
Qed.

(** X10: every region of a mapping that [_parse] returns is complete: it
    has its 'metadata', 'notes', 'detection_settings' and 'points', and
    its metadata has exactly the ten keys of the region header, without
    the region id, and 'region_classification', 'type' and 'name'. *)
Theorem parsed_regions_complete b self fid md regs rest rid reg :
  _parse self b fid = Ok (md, regs, rest) →
  regs !! rid = Some reg →
  region_complete reg.
Proof.
  intros Hparse Hreg.
  by apply (parse_result_complete _ _ _ _ _ _ Hparse rid reg).
Qed.

(** X13: the points of every region of a parsed file can be read back.
    When the result of [_parse] is stored as the parsed data of [file]
    and holds the decimal form of [region] as a key, then
    [get_points_from_region] without [convert_time] raises nothing and
    returns the points of that region in their order, each as the list
    [[x, y]]. *)
Theorem parsed_points_read_back b self self' fid md regs rest
    (fs : gmap string (file_content (num := num))) region file reg :
  _parse self b fid = Ok (md, regs, rest) →
  Str.endswith (Str.upper file) ".CSV" = false →
  Str.endswith (Str.upper file) ".JSON" = false →
  output_data self' !! file = Some (ParsedFile md regs) →
  regs !! pretty region = Some reg →
  ∃ pts, points reg = Some pts
    ∧ get_points_from_region self' fs region file false
      = Ok ((λ p : point, PyList [PyStr p.1; p.2]) <$> pts).
Proof.
  intros Hparse Hcsv Hjson Hdata Hreg.
  destruct (parse_result_complete _ _ _ _ _ _ Hparse _ _ Hreg)
    as (md' & _ & _ & _ & _ & [pts Hpts]).
  exists pts. split; [done|].
  unfold get_points_from_region. rewrite Hcsv, Hjson, Hdata. simpl.
  rewrite Hreg. simpl. rewrite Hpts. simpl.
  by rewrite <- list_fmap_compose.
Qed.

(** *** Files whose region ids are all different *)

Lemma parse_stores_blocks b self header count_line ft ffn ev fid blocks rest :
  Str.split (Str.strip header) = [ft; ffn; ev] →
  Str.int (Str.strip count_line) = Ok (Z.of_nat (length blocks)) →
  blocks_parse b self fid blocks rest →
  _parse self b (header :: count_line :: fid)
  = Ok (FileMetadata ft ffn ev, store_blocks ∅ blocks, rest).
Proof.
  intros Hheader Hcount Hblocks. unfold _parse.
  erewrite bind_ok by reflexivity. cbv iota. rewrite Hheader.
  erewrite bind_ok by reflexivity. cbv iota.
  erewrite bind_ok by (apply lift_ok, Hcount).
  rewrite Nat2Z.id.
  erewrite bind_ok by (by apply parse_regions_blocks).
  reflexivity.
Qed.

Lemma store_blocks_size_distinct regs blocks :
  NoDup blocks.*1 →
  (∀ rid, rid ∈ blocks.*1 → regs !! rid = None) →
  size (store_blocks regs blocks) = (size regs + length blocks)%nat.
Proof.
  revert regs. induction blocks as [|[rid reg] blocks IH]; intros regs Hnd Hnew.
  - unfold store_blocks. simpl. lia.
  - apply NoDup_cons in Hnd as [Hnotin Hnd].
    unfold store_blocks. simpl.
    fold (store_blocks (<[rid := reg]> regs) blocks).
    rewrite IH; [|done|].
    + rewrite map_size_insert, (Hnew rid) by (by left). simpl. lia.
    + intros rid' Hin. rewrite lookup_insert_ne; [apply Hnew; by right|].
      intros ->. done.
Qed.

(** X11: in a region file whose blocks all carry different region ids,
    the mapping that [_parse] returns has exactly as many entries as the
    file declares, and it holds every block under its id. *)
Theorem distinct_region_ids_all_kept b self header count_line ft ffn ev fid
    blocks rest :
  Str.split (Str.strip header) = [ft; ffn; ev] →
  Str.int (Str.strip count_line) = Ok (Z.of_nat (length blocks)) →
  blocks_parse b self fid blocks rest →
  NoDup blocks.*1 →
  ∃ regs,
    _parse self b (header :: count_line :: fid)
    = Ok (FileMetadata ft ffn ev, regs, rest)
    ∧ size regs = length blocks
    ∧ ∀ rid reg, (rid, reg) ∈ blocks → regs !! rid = Some reg.
Proof.
  intros Hheader Hcount Hblocks Hnd.
  exists (store_blocks ∅ blocks). split_and!.
  - by apply parse_stores_blocks.
  - rewrite store_blocks_size_distinct; [|done|done].
    by rewrite map_size_empty.
  - intros rid reg (i & Hi)%list_elem_of_lookup.
    apply (store_blocks_last _ _ i); [done|].
    intros j reg' Hlt Hj.
    assert (i = j) as Heq; [|lia].
    apply (proj1 (NoDup_alt _) Hnd i j rid);
      rewrite list_lookup_fmap; [by rewrite Hi|by rewrite Hj].
Qed.

(** *** One block, and a file of one block *)

Lemma block_parses_alone b self blank header n_notes note_lines n_settings
    setting_lines classification points_line name htoks rid toks type_tok pts :
  Str.split (Str.strip header) = htoks →
  htoks !! 2%nat = Some rid →
  (13 ≤ length htoks)%nat →
  Str.int (Str.strip n_notes) = Ok (Z.of_nat (length note_lines)) →
  Str.int (Str.strip n_settings) = Ok (Z.of_nat (length setting_lines)) →
  Str.split (Str.strip points_line) = (toks ++ [type_tok])%list →
  _points_to_dict b self toks = Ok pts →
  ∃ reg, points reg = Some pts
    ∧ ∀ rest,
        parse_region b self ∅
          (block_lines blank header n_notes note_lines n_settings
             setting_lines classification points_line name ++ rest)%list
        = Ok ({[rid := reg]}, rest).
Proof.
  intros Hsplit Hrid Hlen Hnotes Hsettings Hpoints Hpts.
  destruct (region_metadata_to_dict_ok htoks Hlen) as [md Hmd].
  eexists. split; [|intros rest; apply read_block_alone;
                    by eapply read_block_lines].
  reflexivity.
Qed.

Lemma parse_one_region b self file_header count_line ft ffn ev blank header
    n_notes note_lines n_settings setting_lines classification points_line
    name rest htoks rid toks type_tok pts :
  Str.split (Str.strip file_header) = [ft; ffn; ev] →
  Str.int (Str.strip count_line) = Ok 1 →
  Str.split (Str.strip header) = htoks →
  htoks !! 2%nat = Some rid →
  (13 ≤ length htoks)%nat →
  Str.int (Str.strip n_notes) = Ok (Z.of_nat (length note_lines)) →
  Str.int (Str.strip n_settings) = Ok (Z.of_nat (length setting_lines)) →
  Str.split (Str.strip points_line) = (toks ++ [type_tok])%list →
  _points_to_dict b self toks = Ok pts →
  ∃ reg, points reg = Some pts
    ∧ _parse self b
        (file_header :: count_line
         :: block_lines blank header n_notes note_lines n_settings
              setting_lines classification points_line name ++ rest)%list
      = Ok (FileMetadata ft ffn ev, {[rid := reg]}, rest).
Proof.
  intros Hfh Hcount Hsplit Hrid Hlen Hnotes Hsettings Hpoints Hpts.
  destruct (block_parses_alone b self blank header n_notes note_lines
              n_settings setting_lines classification points_line name
              htoks rid toks type_tok pts)
    as (reg & Hreg & Hblock); [done..|].
  exists reg. split; [done|].
  rewrite (parse_stores_blocks b self file_header count_line ft ffn ev _
             [(rid, reg)] rest); [|done|done|].
  - unfold store_blocks. simpl. by rewrite insert_empty.
  - eapply blocks_cons; [apply Hblock|apply blocks_nil].
Qed.

End ParsedRegions.

(** X10 on a file with one region of two points. *)
Lemma parsed_regions_complete_witness :
  ∃ md regs rest reg,
    Region2DParser._parse (Region2DParser.Parser (num := Z) None None ∅) true
      ["EVR 4 12.0.341.42620"; "1"; "";
       "13 2 1 0 2 -1 1 20170625 1539223320 9.2447583998 20170625 1539223420 13.5";
       "0"; "0"; "Unclassified";
       "20170625 1539223320 9.2447583998 20170625 1539223420 13.5 1";
       "Region1"]
    = Ok (md, regs, rest)
    ∧ regs !! "1" = Some reg
    ∧ region_complete reg.
Proof.
  destruct (parse_one_region true
              (Region2DParser.Parser (num := Z) None None ∅)
              "EVR 4 12.0.341.42620" "1" "EVR" "4" "12.0.341.42620" ""
              "13 2 1 0 2 -1 1 20170625 1539223320 9.2447583998 20170625 1539223420 13.5"
              "0" [] "0" [] "Unclassified"
              "20170625 1539223320 9.2447583998 20170625 1539223420 13.5 1"
              "Region1" [] _ "1"
              ["20170625"; "1539223320"; "9.2447583998";
               "20170625"; "1539223420"; "13.5"] "1" _
              eq_refl eq_refl eq_refl eq_refl ltac:(simpl; lia)
              eq_refl eq_refl eq_refl eq_refl)
    as (reg & _ & Hparse).
  eexists _, _, _, reg. split; [exact Hparse|].
  split; [apply lookup_singleton_eq|].
  exact (parsed_regions_complete _ _ _ _ _ _ "1" reg Hparse
           (lookup_singleton_eq _ _)).
Defined.

(** X13 on the same file, stored as the parsed data of x1. *)
Lemma parsed_points_read_back_witness :
  ∃ md regs rest,
    Region2DParser._parse (Region2DParser.Parser (num := Z) None None ∅) true
      ["EVR 4 12.0.341.42620"; "1"; "";
       "13 2 1 0 2 -1 1 20170625 1539223320 9.2447583998 20170625 1539223420 13.5";
       "0"; "0"; "Unclassified";
       "20170625 1539223320 9.2447583998 20170625 1539223420 13.5 1";
       "Region1"]
    = Ok (md, regs, rest)
    ∧ Region2DParser.get_points_from_region
        (Region2DParser.Parser None None
           {["x1" := Region2DParser.ParsedFile md regs]}) ∅ 1 "x1" false
      = Ok [Region2DParser.PyList
              [Region2DParser.PyStr "D20170625T1539223320";
               Region2DParser.PyStr "9.2447583998"];
            Region2DParser.PyList
              [Region2DParser.PyStr "D20170625T1539223420";
               Region2DParser.PyStr "13.5"]].
Proof.
  destruct (parse_one_region true
              (Region2DParser.Parser (num := Z) None None ∅)
              "EVR 4 12.0.341.42620" "1" "EVR" "4" "12.0.341.42620" ""
              "13 2 1 0 2 -1 1 20170625 1539223320 9.2447583998 20170625 1539223420 13.5"
              "0" [] "0" [] "Unclassified"
              "20170625 1539223320 9.2447583998 20170625 1539223420 13.5 1"
              "Region1" [] _ "1"
              ["20170625"; "1539223320"; "9.2447583998";
               "20170625"; "1539223420"; "13.5"] "1"
              [("D20170625T1539223320", Region2DParser.PyStr "9.2447583998");
               ("D20170625T1539223420", Region2DParser.PyStr "13.5")]
              eq_refl eq_refl eq_refl eq_refl ltac:(simpl; lia)
              eq_refl eq_refl eq_refl eq_refl)
    as (reg & Hpts & Hparse).
  eexists _, _, _. split; [exact Hparse|].
  destruct (parsed_points_read_back true _
              (Region2DParser.Parser None None
                 {["x1" := Region2DParser.ParsedFile
                             (FileMetadata "EVR" "4" "12.0.341.42620")
                             {["1" := reg]}]})
              _ _ _ _ ∅ 1 "x1" reg Hparse eq_refl eq_refl
              (lookup_singleton_eq _ _) (lookup_singleton_eq _ _))
    as (pts & Hpts' & Hget).
  rewrite Hget. rewrite Hpts in Hpts'. by injection Hpts' as <-.
Defined.

(** X11 on a file of two regions with the ids 1 and 2. *)
Lemma distinct_region_ids_all_kept_witness :
  ∃ regs,
    Region2DParser._parse (Region2DParser.Parser (num := Z) None None ∅) false
      ["EVR 4 12.0.341.42620"; "2";
       "";
       "13 1 1 0 2 -1 1 20170625 1539223320 9.2 20170625 1539223320 9.2";
       "0"; "0"; "Unclassified"; "20170625 1539223320 9.2 1"; "First";
       "";
       "13 1 2 0 2 -1 1 20170626 1039223320 7.5 20170626 1039223320 7.5";
       "1"; "a note"; "0"; "Krill"; "20170626 1039223320 7.5 4"; "Second"]
    = Ok (FileMetadata "EVR" "4" "12.0.341.42620", regs, [])
    ∧ size regs = 2%nat
    ∧ is_Some (regs !! "1")
    ∧ is_Some (regs !! "2").
Proof.
  set (self := Region2DParser.Parser (num := Z) None None ∅).
  destruct (block_parses_alone false self ""
              "13 1 1 0 2 -1 1 20170625 1539223320 9.2 20170625 1539223320 9.2"
              "0" [] "0" [] "Unclassified" "20170625 1539223320 9.2 1" "First"
              _ "1" ["20170625"; "1539223320"; "9.2"] "1" _
              eq_refl eq_refl ltac:(simpl; lia) eq_refl eq_refl eq_refl eq_refl)
    as (reg1 & _ & Hblock1).
  destruct (block_parses_alone false self ""
              "13 1 2 0 2 -1 1 20170626 1039223320 7.5 20170626 1039223320 7.5"
              "1" ["a note"] "0" [] "Krill" "20170626 1039223320 7.5 4" "Second"
              _ "2" ["20170626"; "1039223320"; "7.5"] "4" _
              eq_refl eq_refl ltac:(simpl; lia) eq_refl eq_refl eq_refl eq_refl)
    as (reg2 & _ & Hblock2).
  destruct (distinct_region_ids_all_kept false self
              "EVR 4 12.0.341.42620" "2" "EVR" "4" "12.0.341.42620"
              _ [("1", reg1); ("2", reg2)] [] eq_refl eq_refl
              (blocks_cons _ _ _ _ _ _ _ _ (Hblock1 _)
                 (blocks_cons _ _ _ _ _ _ _ _ (Hblock2 [])
                    (blocks_nil _ _ _))))
    as (regs & Hparse & Hsize & Hall).
  - simpl. repeat constructor.
    + intros Hin%list_elem_of_singleton. discriminate Hin.
    + intros Hin. by apply elem_of_nil in Hin.
  - exists regs. split; [exact Hparse|]. split; [exact Hsize|]. split.
    + exists reg1. apply Hall. by left.
    + exists reg2. apply Hall. right. by left.
Defined.

(** ** Points from a JSON file and from the parsed data *)

Section JsonAndParsed.
Context {num : Type}.
Import Region2DParser.

(** X12: a JSON file and the parsed data that hold the same dict give the
    same outcome of [get_points_from_region], points or exception, for
    every region id and either value of [convert_time]. *)
Theorem json_and_parsed_agree (self : parser (num := num))
    (fs : gmap string (file_content (num := num))) region json_file file
    convert_time data :
  Str.endswith (Str.upper json_file) ".CSV" = false →
  Str.endswith (Str.upper json_file) ".JSON" = true →
  fs !! json_file = Some (JsonFile data) →
  Str.endswith (Str.upper file) ".CSV" = false →
  Str.endswith (Str.upper file) ".JSON" = false →
  output_data self !! file = Some data →
  get_points_from_region self fs region json_file convert_time
  = get_points_from_region self fs region file convert_time.
Proof.
  intros Hcsv Hjson Hfile Hcsv' Hjson' Hdata. unfold get_points_from_region.
  by rewrite Hcsv, Hjson, Hfile, Hcsv', Hjson', Hdata.
Qed.

End JsonAndParsed.

(** X12 on the region 1 of x1, from x1.json and from the parsed x1. *)
Lemma json_and_parsed_agree_witness :
  Region2DParser.get_points_from_region x1_parser x1_files 1 "x1.json" true
  = Region2DParser.get_points_from_region x1_parser x1_files 1 "x1" true.
Proof.
  apply (json_and_parsed_agree x1_parser x1_files 1 "x1.json" "x1" true x1_data);
    reflexivity.
Defined.

(** ** Depth bounds from a raw file *)

Section BoundsFromRaw.
Context {num range : Type} (num_le num_ge : num → num → bool)
  (isfile : string → bool) (raw_range : string → range)
  (range_max range_min : range → num).
Import Region2DParser.

Implicit Types (self : ranged_parser (num := num) (range := range)).

(** X14: [set_range_edge_from_raw] does nothing when no raw file is named,
    and raises [ValueError], changing nothing, when the name does not end
    in '.raw' or names no file. *)
Theorem raw_file_checked_first self :
  set_range_edge_from_raw num_le num_ge isfile raw_range range_max range_min
    None self = (Ok tt, self)
  ∧ ∀ raw, Str.endswith raw ".raw" = false ∨ isfile raw = false →
      set_range_edge_from_raw num_le num_ge isfile raw_range range_max
        range_min (Some raw) self
      = (Raise ValueError, self).
Proof.
  split; [done|]. intros raw Hbad. unfold set_range_edge_from_raw.
  destruct Hbad as [-> | ->]; [done|]. by rewrite andb_false_r.
Qed.

(** X15: a parser whose [min_depth] is at or above the maximum of the new
    range cannot take the new range: the assignment to [max_depth] comes
    first and is checked against the old [min_depth], so the call raises
    [ValueError] and both bounds stay as they were, while [_raw_range]
    already holds the new range. *)
Theorem raw_range_below_old_min_rejected self raw lo :
  Str.endswith raw ".raw" = true →
  isfile raw = true →
  _min_depth self.1 = Some lo →
  num_le (range_max (raw_range raw)) lo = true →
  set_range_edge_from_raw num_le num_ge isfile raw_range range_max range_min
    (Some raw) self
  = (Raise ValueError, (self.1, Some (raw_range raw))).
Proof.
  intros Hext Hfile Hlo Hle. unfold set_range_edge_from_raw.
  rewrite Hext, Hfile. simpl.
  by rewrite (set_max_depth_rejects num_le self.1 _ lo Hlo Hle).
Qed.

(** X16: when the maximum of the range is accepted but its minimum is not
    below it (a range of a single value, for one), the call raises
    [ValueError] after [max_depth] was replaced: the parser is left with
    the new [max_depth] and the old [min_depth]. *)
Theorem raw_range_degenerate_half_set self raw :
  Str.endswith raw ".raw" = true →
  isfile raw = true →
  (∀ lo, _min_depth self.1 = Some lo →
         num_le (range_max (raw_range raw)) lo = false) →
  num_ge (range_min (raw_range raw)) (range_max (raw_range raw)) = true →
  set_range_edge_from_raw num_le num_ge isfile raw_range range_max range_min
    (Some raw) self
  = (Raise ValueError,
     (Parser (_min_depth self.1) (Some (range_max (raw_range raw)))
        (output_data self.1),
      Some (raw_range raw))).
Proof.
  intros Hext Hfile Hmax Hge. unfold set_range_edge_from_raw.
  rewrite Hext, Hfile. simpl.
  rewrite (set_max_depth_accepts num_le self.1 _ Hmax).
  by rewrite (set_min_depth_rejects num_ge _ _ (range_max (raw_range raw))).
Qed.

(** X17: when the maximum of the range is accepted and its minimum is
    below it, the call succeeds and both bounds are those of the range,
    whatever [max_depth] was before. *)
Theorem raw_range_sets_both_bounds self raw :
  Str.endswith raw ".raw" = true →
  isfile raw = true →
  (∀ lo, _min_depth self.1 = Some lo →
         num_le (range_max (raw_range raw)) lo = false) →
  num_ge (range_min (raw_range raw)) (range_max (raw_range raw)) = false →
  set_range_edge_from_raw num_le num_ge isfile raw_range range_max range_min
    (Some raw) self
  = (Ok tt,
     (Parser (Some (range_min (raw_range raw)))
        (Some (range_max (raw_range raw))) (output_data self.1),
      Some (raw_range raw))).
Proof.
  intros Hext Hfile Hmax Hge. unfold set_range_edge_from_raw.
  rewrite Hext, Hfile. simpl.
  rewrite (set_max_depth_accepts num_le self.1 _ Hmax).
  rewrite set_min_depth_accepts; [done|].
  intros hi Hhi. simpl in Hhi. by injection Hhi as <-.
Qed.

End BoundsFromRaw.

(** X14 on a file name that does not end in '.raw'. *)
Lemma raw_file_checked_first_witness :
  Region2DParser.set_range_edge_from_raw Z.leb Z.geb raw_files raw_ranges snd fst
    (Some "a.txt") (Region2DParser.Parser None None ∅, None)
  = (Raise ValueError, (Region2DParser.Parser None None ∅, None)).
Proof.
  apply (proj2 (raw_file_checked_first Z.leb Z.geb raw_files raw_ranges snd fst
                  (Region2DParser.Parser None None ∅, None)) "a.txt").
  by left.
Defined.

(** X15 on a parser with the bounds 300 and 400 and the range 0 .. 250. *)
Lemma raw_range_below_old_min_rejected_witness :
  Region2DParser.set_range_edge_from_raw Z.leb Z.geb raw_files raw_ranges snd fst
    (Some "a.raw") (Region2DParser.Parser (Some 300) (Some 400) ∅, None)
  = (Raise ValueError,
     (Region2DParser.Parser (Some 300) (Some 400) ∅, Some (0, 250))).
Proof.
  apply (raw_range_below_old_min_rejected Z.leb Z.geb raw_files raw_ranges
           snd fst (Region2DParser.Parser (Some 300) (Some 400) ∅, None)
           "a.raw" 300); reflexivity.
Defined.

(** X16 on a new parser and the range of the single value 7. *)
Lemma raw_range_degenerate_half_set_witness :
  Region2DParser.set_range_edge_from_raw Z.leb Z.geb raw_files raw_ranges snd fst
    (Some "b.raw") (Region2DParser.Parser None None ∅, None)
  = (Raise ValueError, (Region2DParser.Parser None (Some 7) ∅, Some (7, 7))).
Proof.
  apply (raw_range_degenerate_half_set Z.leb Z.geb raw_files raw_ranges
           snd fst (Region2DParser.Parser None None ∅, None) "b.raw");
    try reflexivity.
  intros lo Hlo. discriminate Hlo.
Defined.

(** X17 on a new parser and the range 0 .. 250. *)
Lemma raw_range_sets_both_bounds_witness :
  Region2DParser.set_range_edge_from_raw Z.leb Z.geb raw_files raw_ranges snd fst
    (Some "a.raw") (Region2DParser.Parser None None ∅, None)
  = (Ok tt, (Region2DParser.Parser (Some 0) (Some 250) ∅, Some (0, 250))).
Proof.
  apply (raw_range_sets_both_bounds Z.leb Z.geb raw_files raw_ranges
           snd fst (Region2DParser.Parser None None ∅, None) "a.raw");
    try reflexivity.
  intros lo Hlo. discriminate Hlo.
Defined.
